(* Shallow embedding of the authentication and authorization core of
   unified-python (auth.py, email_auth.py, main.py, database.py):
   the ORM tables as lists of records, `db.query(...).filter(...).first()`
   as `find`, `.all()` as `filter`, HTTPException as an error outcome,
   and the handlers as functions returning the committed database. *)

From Stdlib Require Import List String Ascii Bool ZArith Lia Permutation.
Import ListNotations.
Open Scope string_scope.

(* ------------------------------------------------------------------ *)
(* database.py                                                          *)
(* ------------------------------------------------------------------ *)

Record User := mkUser {
  u_id : string;
  u_email : string;
  u_password_hash : option string;
  u_google_id : option string;
  u_first_name : string;
  u_last_name : string;
  u_auth_provider : string;
  u_is_active : bool;
  u_is_admin : bool
}.

Record Prompt := mkPrompt {
  p_id : string;
  p_title : string;
  p_description : option string;
  p_content : string;
  p_category : option string;
  p_tags : list string;
  p_is_public : bool;
  p_user_id : string
}.

(** Token rows; timestamps are integers (seconds).  The row holds the
    hash of the secret and no field for the secret itself. *)
Record Token := mkToken {
  tok_id : string;
  tok_name : string;
  tok_description : string;
  tok_token_hash : string;
  tok_user_id : string;
  tok_is_active : bool;
  tok_last_used_at : option Z;
  tok_usage_count : Z;
  tok_permissions : list string;
  tok_expires_at : option Z
}.

Record DB := mkDB {
  users : list User;
  prompts : list Prompt;
  tokens : list Token
}.

Definition set_users (db : DB) (us : list User) : DB :=
  mkDB us (prompts db) (tokens db).
Definition set_prompts (db : DB) (ps : list Prompt) : DB :=
  mkDB (users db) ps (tokens db).
Definition set_tokens (db : DB) (ts : list Token) : DB :=
  mkDB (users db) (prompts db) ts.

(** `db.query(User).filter(User.id == user_id).first()` *)
Definition query_user_by_id (db : DB) (user_id : string) : option User :=
  find (fun u => String.eqb (u_id u) user_id) (users db).

(** Committing a modified token row: `UPDATE tokens ... WHERE id = ?` *)
Definition commit_token (db : DB) (t : Token) : DB :=
  set_tokens db (map (fun x => if String.eqb (tok_id x) (tok_id t) then t else x)
                     (tokens db)).

(** `db.delete(token); db.commit()`: `DELETE FROM tokens WHERE id = ?` *)
Definition delete_token_row (db : DB) (t : Token) : DB :=
  set_tokens db (filter (fun x => negb (String.eqb (tok_id x) (tok_id t))) (tokens db)).

(** A handler either returns a value or raises `HTTPException(code, detail)`. *)
Inductive Outcome (A : Type) : Type :=
| Ok (a : A)
| Raise (status_code : Z) (detail : string).
Arguments Ok {A} a.
Arguments Raise {A} status_code detail.

(** Python truthiness of an optional string (`None` and `''` are falsy). *)
Definition truthy (s : option string) : bool :=
  match s with
  | Some v => negb (String.eqb v "")
  | None => false
  end.

(* ------------------------------------------------------------------ *)
(* Request bodies: the JSON object read by `await request.json()`;     *)
(* `None` when the body is not a JSON object (request.json() raises, or *)
(* `data.get` / `'k' in data` fails), which the handlers turn into 500. *)
(* A key absent from the object is `None` in its field.                 *)
(* ------------------------------------------------------------------ *)

Record TokenCreateBody := mkTokenCreateBody {
  tcb_name : option string;
  tcb_description : option string;
  tcb_permissions : option (list string)
}.

Record TokenPatch := mkTokenPatch {
  tp_name : option string;
  tp_description : option string;
  tp_is_active : option bool;
  tp_permissions : option (list string)
}.

Definition get_or {A} (v : option A) (d : A) : A :=
  match v with Some x => x | None => d end.

Definition upd {A} (v : option A) (old : A) : A :=
  match v with Some x => x | None => old end.

(* ------------------------------------------------------------------ *)
(* Responses                                                           *)
(* ------------------------------------------------------------------ *)

(** One element of the `tokens` list of GET /api/tokens. *)
Record TokenView := mkTokenView {
  tv_id : string;
  tv_name : string;
  tv_description : string;
  tv_is_active : bool;
  tv_last_used_at : option Z;
  tv_usage_count : Z;
  tv_permissions : list string;
  tv_expires_at : option Z;
  tv_owner_user_id : string
}.

Definition token_view (t : Token) : TokenView :=
  mkTokenView (tok_id t) (tok_name t) (tok_description t) (tok_is_active t)
    (tok_last_used_at t) (tok_usage_count t) (tok_permissions t)
    (tok_expires_at t) (tok_user_id t).

Record TokenList := mkTokenList {
  tl_tokens : list TokenView;
  tl_user_id : string;
  tl_count : nat
}.

(** Response of POST /api/tokens: the only response carrying the secret. *)
Record TokenCreated := mkTokenCreated {
  tc_id : string;
  tc_name : string;
  tc_description : string;
  tc_token : string;
  tc_permissions : list string
}.

Record TokenUpdated := mkTokenUpdated {
  tu_id : string;
  tu_name : string;
  tu_description : string;
  tu_is_active : bool;
  tu_permissions : list string;
  tu_owner_user_id : string
}.

Record TokenDeleted := mkTokenDeleted {
  td_message : string;
  td_token_id : string
}.

(* ------------------------------------------------------------------ *)
(* Python string operations used on the Authorization header           *)
(* ------------------------------------------------------------------ *)

(** `s.split(' ')`: split on every single space, keeping empty pieces. *)
Fixpoint py_split_space_aux (s cur : string) : list string :=
  match s with
  | EmptyString => [cur]
  | String c rest =>
      if Ascii.eqb c " "%char then cur :: py_split_space_aux rest ""
      else py_split_space_aux rest (cur ++ String c "")
  end.

Definition py_split_space (s : string) : list string := py_split_space_aux s "".

(** `s.replace(pat, '')` for a non-empty `pat`: remove every
    non-overlapping occurrence, scanning left to right.  The fuel is the
    length of `s`; every step consumes at least one character. *)
Fixpoint py_remove_all_fuel (fuel : nat) (pat s : string) : string :=
  match fuel with
  | O => s
  | S fuel' =>
      match s with
      | EmptyString => EmptyString
      | String c rest =>
          if String.prefix pat s
          then py_remove_all_fuel fuel' pat
                 (substring (String.length pat) (String.length s - String.length pat) s)
          else String c (py_remove_all_fuel fuel' pat rest)
      end
  end.

Definition py_remove_all (pat s : string) : string :=
  py_remove_all_fuel (String.length s) pat s.

(* ------------------------------------------------------------------ *)
(* Requests and the server-side session (cookie-backed dict)           *)
(* ------------------------------------------------------------------ *)

Record Session := mkSession {
  s_user_id : option string;
  s_oauth_state : option string;
  s_access_token : option string
}.

Definition empty_session : Session := mkSession None None None.

Record Request := mkRequest {
  req_session : Session;
  req_authorization : option string;   (* header `Authorization` *)
  req_x_api_token : option string      (* header `X-API-Token` *)
}.

(* ------------------------------------------------------------------ *)
(* auth.py                                                              *)
(* ------------------------------------------------------------------ *)

Section Auth.

(** `hash_token`: `hashlib.sha256(token.encode()).hexdigest()`. *)
Variable hash_token : string -> string.

(** `verify_token`: `jwt.decode(token, JWT_SECRET, ...)`; `None` on
    `JWTError` (bad signature, expired), otherwise the payload, of which
    the code reads only `payload.get('sub')`.  A payload that is an
    empty dict is falsy and behaves as a payload without `sub`. *)
Variable verify_token : string -> option (option string).

(** `verify_password`: `bcrypt.checkpw(password.encode('utf-8'),
    hashed_password.encode('utf-8'))`; `None` when it raises: a password
    that is not encodable as UTF-8 (a lone surrogate), an invalid hash,
    and with bcrypt 5 a password longer than 72 bytes. *)
Variable verify_password : string -> string -> option bool.

Definition get_current_user (db : DB) (request : Request) : option User :=
  let session_user :=
    let user_id := s_user_id (req_session request) in
    if truthy user_id then query_user_by_id db (get_or user_id "") else None in
  match session_user with
  | Some user => Some user
  | None =>
      match req_authorization request with
      | Some authorization =>
          if String.prefix "Bearer " authorization then
            let token := nth 1 (py_split_space authorization) "" in
            match verify_token token with
            | Some sub =>
                if truthy sub then query_user_by_id db (get_or sub "") else None
            | None => None
            end
          else None
      | None => None
      end
  end.

Definition require_auth (db : DB) (request : Request) : Outcome User :=
  match get_current_user db request with
  | Some user => Ok user
  | None => Raise 401 "Authentication required"
  end.

(** `verify_api_token(token, db)` at time `now`: the usage bookkeeping is
    committed before the owner is looked up. *)
Definition verify_api_token (now : Z) (token : string) (db : DB) : DB * option User :=
  if String.eqb token "" then (db, None) else
  let token_hash := hash_token token in
  match find (fun t => String.eqb (tok_token_hash t) token_hash && Bool.eqb (tok_is_active t) true)
             (tokens db) with
  | None => (db, None)
  | Some token_record =>
      let token_record' :=
        mkToken (tok_id token_record) (tok_name token_record) (tok_description token_record)
          (tok_token_hash token_record) (tok_user_id token_record) (tok_is_active token_record)
          (Some now) (tok_usage_count token_record + 1) (tok_permissions token_record)
          (tok_expires_at token_record) in
      let db' := commit_token db token_record' in
      (db', query_user_by_id db' (tok_user_id token_record))
  end.

(** The API token read from the headers:
    `request.headers.get('X-API-Token') or
     request.headers.get('Authorization', '').replace('Bearer ', '')`. *)
Definition api_token_of (request : Request) : string :=
  if truthy (req_x_api_token request) then get_or (req_x_api_token request) ""
  else py_remove_all "Bearer " (get_or (req_authorization request) "").

Definition get_current_user_or_token (now : Z) (db : DB) (request : Request)
  : DB * option User :=
  match get_current_user db request with
  | Some user => (db, Some user)
  | None =>
      let api_token := api_token_of request in
      if negb (String.eqb api_token "") then verify_api_token now api_token db
      else (db, None)
  end.

(* ------------------------------------------------------------------ *)
(* main.py: token management endpoints (current_user from require_auth) *)
(* ------------------------------------------------------------------ *)

Definition get_tokens (current_user : User) (db : DB) : Outcome TokenList :=
  let toks := filter (fun t => String.eqb (tok_user_id t) (u_id current_user)) (tokens db) in
  if existsb (fun t => negb (String.eqb (tok_user_id t) (u_id current_user))) toks
  then Raise 500 "Security error detected"
  else Ok (mkTokenList (map token_view toks) (u_id current_user) (List.length toks)).

(** POST /api/tokens; `raw_token` is `secrets.token_urlsafe(32)` and
    `new_id` is `str(uuid.uuid4())`.  A duplicate primary key makes the
    commit fail, which the handler turns into 500 after a rollback. *)
Definition create_token (raw_token new_id : string) (body : option TokenCreateBody)
    (current_user : User) (db : DB) : DB * Outcome TokenCreated :=
  match body with
  | None => (db, Raise 500 "Internal server error")
  | Some data =>
      let token_hash := hash_token raw_token in
      let token := mkToken new_id (get_or (tcb_name data) "MCP Token")
                     (get_or (tcb_description data) "") token_hash (u_id current_user)
                     true None 0 (get_or (tcb_permissions data) ["read"; "write"]) None in
      if existsb (fun t => String.eqb (tok_id t) new_id) (tokens db)
      then (db, Raise 500 "Internal server error")
      else (set_tokens db (tokens db ++ [token]),
            Ok (mkTokenCreated (tok_id token) (tok_name token) (tok_description token)
                  raw_token (tok_permissions token)))
  end.

(** `db.query(Token).filter(Token.id == token_id, Token.user_id == current_user.id).first()` *)
Definition query_owned_token (db : DB) (token_id : string) (current_user : User)
  : option Token :=
  find (fun t => String.eqb (tok_id t) token_id && String.eqb (tok_user_id t) (u_id current_user))
       (tokens db).

Definition update_token (token_id : string) (body : option TokenPatch)
    (current_user : User) (db : DB) : DB * Outcome TokenUpdated :=
  match query_owned_token db token_id current_user with
  | None => (db, Raise 404 "Token not found")
  | Some token =>
      if negb (String.eqb (tok_user_id token) (u_id current_user))
      then (db, Raise 403 "Access denied")
      else
        match body with
        | None => (db, Raise 500 "Internal server error")
        | Some data =>
            let token' :=
              mkToken (tok_id token) (upd (tp_name data) (tok_name token))
                (upd (tp_description data) (tok_description token))
                (tok_token_hash token) (tok_user_id token)
                (upd (tp_is_active data) (tok_is_active token))
                (tok_last_used_at token) (tok_usage_count token)
                (upd (tp_permissions data) (tok_permissions token))
                (tok_expires_at token) in
            (commit_token db token',
             Ok (mkTokenUpdated (tok_id token') (tok_name token') (tok_description token')
                   (tok_is_active token') (tok_permissions token') (tok_user_id token')))
        end
  end.

Definition delete_token (token_id : string) (current_user : User) (db : DB)
  : DB * Outcome TokenDeleted :=
  match query_owned_token db token_id current_user with
  | None => (db, Raise 404 "Token not found")
  | Some token =>
      if negb (String.eqb (tok_user_id token) (u_id current_user))
      then (db, Raise 403 "Access denied")
      else (delete_token_row db token, Ok (mkTokenDeleted "Token deleted successfully" token_id))
  end.


(* ------------------------------------------------------------------ *)
(* main.py: prompt endpoints                                            *)
(* ------------------------------------------------------------------ *)

(** A key of a JSON object body: absent, `null`, or a value of the type
    of its column. *)
Inductive JField (A : Type) : Type :=
| JAbsent : JField A
| JNull : JField A
| JVal : A -> JField A.
#[global] Arguments JAbsent {A}.
#[global] Arguments JNull {A}.
#[global] Arguments JVal {A} _.

(** `data.get(key, default)` stored in a NOT NULL column: `None` is the
    SQL NULL that the column refuses. *)
Definition jget_not_null {A} (f : JField A) (default : A) : option A :=
  match f with
  | JAbsent => Some default
  | JNull => None
  | JVal a => Some a
  end.

(** `data.get(key)` stored in a nullable column. *)
Definition jget_nullable {A} (f : JField A) : option A :=
  match f with
  | JVal a => Some a
  | _ => None
  end.

(** `data.get(key, default)` stored in a nullable column read back as
    `default` when NULL: the `tags` JSON and the `is_public` flag, whose
    NULL the filters `is_public == True` and the tests of
    `prompt.is_public` treat as false. *)
Definition jget_or {A} (f : JField A) (default : A) : A :=
  match f with
  | JVal a => a
  | _ => default
  end.

Record PromptCreateBody := mkPromptCreateBody {
  pcb_title : JField string;
  pcb_description : JField string;
  pcb_content : JField string;
  pcb_category : JField string;
  pcb_user_id : JField string;
  pcb_tags : JField (list string);
  pcb_is_public : JField bool
}.

(** Keys of the PUT body; `Some None` sets a nullable column to NULL. *)
Record PromptPatch := mkPromptPatch {
  pp_title : option string;
  pp_description : option (option string);
  pp_content : option string;
  pp_category : option (option string);
  pp_tags : option (list string);
  pp_is_public : option bool
}.

Record PromptView := mkPromptView {
  pv_id : string;
  pv_title : string;
  pv_description : option string;
  pv_content : string;
  pv_category : option string;
  pv_tags : list string;
  pv_is_public : bool;
  pv_is_owner : bool
}.

Definition prompt_view (p : Prompt) (is_owner : bool) : PromptView :=
  mkPromptView (p_id p) (p_title p) (p_description p) (p_content p) (p_category p)
    (p_tags p) (p_is_public p) is_owner.

Definition commit_prompt (db : DB) (p : Prompt) : DB :=
  set_prompts db (map (fun x => if String.eqb (p_id x) (p_id p) then p else x) (prompts db)).

Definition delete_prompt_row (db : DB) (p : Prompt) : DB :=
  set_prompts db (filter (fun x => negb (String.eqb (p_id x) (p_id p))) (prompts db)).

(** The database's own checks on a prompt row whose NOT NULL columns
    are set: the lengths of its VARCHAR and TEXT columns, which MySQL
    enforces in strict mode. *)
Variable prompt_row_fits : Prompt -> bool.

(** POST /api/prompts; `new_id` is `str(uuid.uuid4())`; `body` is `None`
    when `request.json()` is not a JSON object (parse error, or `.get`
    on a list or a scalar).  The handler receives the request only to
    read its body: no credential of the request is looked at.  A NULL in
    a NOT NULL column, a row the database refuses and a duplicate
    primary key fail the commit, which is rolled back and answered 500. *)
Definition create_prompt (new_id : string) (body : option PromptCreateBody) (db : DB)
  : DB * Outcome PromptView :=
  match body with
  | None => (db, Raise 500 "Internal server error")
  | Some data =>
      match jget_not_null (pcb_title data) "Untitled", jget_not_null (pcb_content data) "",
            jget_not_null (pcb_user_id data) "anonymous" with
      | Some title, Some content, Some user_id =>
          let prompt := mkPrompt new_id title (jget_nullable (pcb_description data)) content
                          (jget_nullable (pcb_category data)) (jget_or (pcb_tags data) [])
                          (jget_or (pcb_is_public data) false) user_id in
          if existsb (fun p => String.eqb (p_id p) new_id) (prompts db)
             || negb (prompt_row_fits prompt)
          then (db, Raise 500 "Internal server error")
          else (set_prompts db (prompts db ++ [prompt]), Ok (prompt_view prompt false))
      | _, _, _ => (db, Raise 500 "Internal server error")
      end
  end.


Definition query_prompt_by_id (db : DB) (prompt_id : string) : option Prompt :=
  find (fun p => String.eqb (p_id p) prompt_id) (prompts db).

Definition update_prompt (now : Z) (prompt_id : string) (body : option PromptPatch)
    (request : Request) (db : DB) : DB * Outcome PromptView :=
  let (db1, cu) := get_current_user_or_token now db request in
  match cu with
  | None => (db1, Raise 401 "Authentication required")
  | Some current_user =>
      match query_prompt_by_id db1 prompt_id with
      | None => (db1, Raise 404 "Prompt not found")
      | Some prompt =>
          let is_owner := String.eqb (p_user_id prompt) (u_id current_user) in
          let is_admin_updating_public := u_is_admin current_user && p_is_public prompt in
          if negb is_owner && negb is_admin_updating_public then
            (db1, Raise 403 (if p_is_public prompt
                             then "Only admins can update public prompts that are not their own"
                             else "You can only update your own prompts"))
          else
            match body with
            | None => (db1, Raise 500 "Internal server error")
            | Some data =>
                let prompt' :=
                  mkPrompt (p_id prompt) (upd (pp_title data) (p_title prompt))
                    (upd (pp_description data) (p_description prompt))
                    (upd (pp_content data) (p_content prompt))
                    (upd (pp_category data) (p_category prompt))
                    (upd (pp_tags data) (p_tags prompt))
                    (upd (pp_is_public data) (p_is_public prompt))
                    (p_user_id prompt) in
                (commit_prompt db1 prompt', Ok (prompt_view prompt' is_owner))
            end
      end
  end.

Definition delete_prompt (now : Z) (prompt_id : string) (request : Request) (db : DB)
  : DB * Outcome string :=
  let (db1, cu) := get_current_user_or_token now db request in
  match cu with
  | None => (db1, Raise 401 "Authentication required")
  | Some current_user =>
      match query_prompt_by_id db1 prompt_id with
      | None => (db1, Raise 404 "Prompt not found")
      | Some prompt =>
          let is_owner := String.eqb (p_user_id prompt) (u_id current_user) in
          let is_admin_deleting_public := u_is_admin current_user && p_is_public prompt in
          if negb is_owner && negb is_admin_deleting_public then
            (db1, Raise 403 (if p_is_public prompt
                             then "Only admins can delete public prompts that are not their own"
                             else "You can only delete your own prompts"))
          else (delete_prompt_row db1 prompt, Ok "Prompt deleted successfully")
      end
  end.


(* ------------------------------------------------------------------ *)
(* email_auth.py: login                                                  *)
(* ------------------------------------------------------------------ *)

(** `create_access_token({"sub": user_id, "email": email})`: the signed JWT. *)
Variable create_access_token : string -> string -> string.

(** `authenticate_user(email, password, db)`: `Some r` when it returns
    `r`, `None` when `verify_password` raises. *)
Definition authenticate_user (email password : string) (db : DB) : option (option User) :=
  match find (fun u => String.eqb (u_email u) email
                       && String.eqb (u_auth_provider u) "local"
                       && Bool.eqb (u_is_active u) true) (users db) with
  | None => Some None
  | Some user =>
      if negb (truthy (u_password_hash user)) then Some None
      else match verify_password password (get_or (u_password_hash user) "") with
           | None => None
           | Some false => Some None
           | Some true => Some (Some user)
           end
  end.

Record LoginResponse := mkLoginResponse {
  lr_user_id : string;
  lr_email : string;
  lr_is_admin : bool;
  lr_token : string
}.

(** POST /api/auth/login: the session is updated only on success; an
    exception of `authenticate_user` is answered 500 "Login failed". *)
Definition login_user (email password : string) (session : Session) (db : DB)
  : Session * Outcome LoginResponse :=
  match authenticate_user email password db with
  | None => (session, Raise 500 "Login failed")
  | Some None => (session, Raise 401 "Invalid email or password")
  | Some (Some user) =>
      let jwt_token := create_access_token (u_id user) (u_email user) in
      (mkSession (Some (u_id user)) (s_oauth_state session) (Some jwt_token),
       Ok (mkLoginResponse (u_id user) (u_email user) (u_is_admin user) jwt_token))
  end.

(* ------------------------------------------------------------------ *)
(* Google OAuth callback                                                *)
(* ------------------------------------------------------------------ *)

(** The JSON of the Google userinfo endpoint, as far as it is read. *)
Record GoogleUserInfo := mkGoogleUserInfo {
  gi_sub : option string;
  gi_email : option string;
  gi_given_name : option string;
  gi_family_name : option string;
  gi_picture : option string
}.

(** The two server-to-server calls of the callback.  `None`: httpx raised
    (connection error, timeout); otherwise the status code and the part
    of the JSON body the code reads. *)
Variable post_token_endpoint : string -> option (Z * option string).
Variable get_userinfo : string -> option (Z * GoogleUserInfo).

(** Exceptions inside the callback's `try`: a failure keeps the state
    (session dict and committed rows) reached when it was raised. *)
Inductive Result (A : Type) : Type :=
| Done (a : A)
| Fail (reason : string).
Arguments Done {A} a.
Arguments Fail {A} reason.

Definition CB (A : Type) : Type := Session * DB -> (Session * DB) * Result A.

Definition cb_ret {A} (a : A) : CB A := fun st => (st, Done a).
Definition cb_fail {A} (reason : string) : CB A := fun st => (st, Fail reason).
Definition cb_bind {A B} (m : CB A) (k : A -> CB B) : CB B :=
  fun st => let (st', r) := m st in
            match r with Done a => k a st' | Fail e => (st', Fail e) end.
Definition cb_modify (f : Session * DB -> Session * DB) : CB unit :=
  fun st => (f st, Done tt).

Notation "x <- m ;; k" := (cb_bind m (fun x => k)) (at level 61, m at next level, right associativity).

(** SQL `col == value` where a Python `None` becomes `IS NULL`. *)
Definition sql_eq_opt (col v : option string) : bool :=
  match col, v with
  | Some a, Some b => String.eqb a b
  | None, None => true
  | _, _ => false
  end.

(** `create_or_update_user_from_google(info, db)`; `new_id` is
    `str(uuid.uuid4())`.  The commit fails on a NULL email (NOT NULL) and
    on a google_id already held by another user (UNIQUE). *)
Definition create_or_update_user_from_google (new_id : string) (info : GoogleUserInfo)
  : CB User :=
  fun '(session, db) =>
  let google_id := gi_sub info in
  let email := gi_email info in
  let first_name := get_or (gi_given_name info) "" in
  let last_name := get_or (gi_family_name info) "" in
  match find (fun u => sql_eq_opt (u_google_id u) google_id
                       || sql_eq_opt (Some (u_email u)) email) (users db) with
  | Some existing_user =>
      let user' := mkUser (u_id existing_user) (u_email existing_user)
                     (u_password_hash existing_user) google_id first_name last_name
                     "google" (u_is_active existing_user) (u_is_admin existing_user) in
      if existsb (fun u => negb (String.eqb (u_id u) (u_id existing_user))
                           && truthy google_id && sql_eq_opt (u_google_id u) google_id)
                 (users db)
      then ((session, db), Fail "IntegrityError")
      else ((session, set_users db (map (fun u => if String.eqb (u_id u) (u_id existing_user)
                                                  then user' else u) (users db))),
            Done user')
  | None =>
      match email with
      | None => ((session, db), Fail "IntegrityError")
      | Some e =>
          let new_user := mkUser new_id e None google_id first_name last_name
                            "google" true false in
          ((session, set_users db (users db ++ [new_user])), Done new_user)
      end
  end.

(** The body of the `try` in `google_callback`; its value is the URL of
    the redirect. *)
Definition google_callback_body (state code : option string) (new_id : string) : CB string :=
  fun st =>
  let session_state := s_oauth_state (fst st) in
  if negb (truthy state) || negb (truthy session_state)
     || negb (String.eqb (get_or state "") (get_or session_state ""))
  then cb_fail "Invalid state parameter" st
  else
  (_ <- cb_modify (fun '(s, db) =>
          (mkSession (s_user_id s) None (s_access_token s), db)) ;;
   if negb (truthy code) then cb_fail "No authorization code received" else
   match post_token_endpoint (get_or code "") with
   | None => cb_fail "httpx error"
   | Some (status, access_token) =>
       if negb (Z.eqb status 200) then cb_fail "Token exchange failed" else
       if negb (truthy access_token) then cb_fail "No access token received" else
       match get_userinfo (get_or access_token "") with
       | None => cb_fail "httpx error"
       | Some (status2, user_info) =>
           if negb (Z.eqb status2 200) then cb_fail "Failed to get user info" else
           user <- create_or_update_user_from_google new_id user_info ;;
           let jwt_token := create_access_token (u_id user) (u_email user) in
           _ <- cb_modify (fun '(s, db) =>
                  (mkSession (Some (u_id user)) (s_oauth_state s) (Some jwt_token), db)) ;;
           cb_ret "/dashboard?auth=success"
       end
   end) st.

(** Starlette's `RedirectResponse(url)`: `status_code` defaults to 307. *)
Record Response := mkResponse {
  status_code : Z;
  location : string
}.

Definition RedirectResponse (url : string) : Response := mkResponse 307 url.

(** GET /api/auth/google/callback: `except Exception` turns every failure
    into a redirect to `/?auth=error`. *)
Definition google_callback (state code : option string) (new_id : string)
    (session : Session) (db : DB) : (Session * DB) * Response :=
  let (st', r) := google_callback_body state code new_id (session, db) in
  match r with
  | Done url => (st', RedirectResponse url)
  | Fail _ => (st', RedirectResponse "/?auth=error")
  end.

End Auth.

Arguments Done {A} a.
Arguments Fail {A} reason.


(* ------------------------------------------------------------------ *)
(* Python whitespace handling (`str.strip()`, `str.split()`)            *)
(* ------------------------------------------------------------------ *)

(** `str.isspace` on a character, reading a Rocq `ascii` as a code point
    below 256: `\t \n \x0b \x0c \r`, `\x1c`..`\x1f`, space, `\x85`, `\xa0`. *)
Definition py_isspace (c : ascii) : bool :=
  let n := nat_of_ascii c in
  ((9 <=? n) && (n <=? 13))%nat || ((28 <=? n) && (n <=? 32))%nat
  || (n =? 133)%nat || (n =? 160)%nat.

Fixpoint drop_space (l : list ascii) : list ascii :=
  match l with
  | [] => []
  | c :: r => if py_isspace c then drop_space r else l
  end.

(** `s.strip()` *)
Definition py_strip (s : string) : string :=
  string_of_list_ascii (rev (drop_space (rev (drop_space (list_ascii_of_string s))))).

(** `s.split()` with no separator: the maximal runs of non-whitespace. *)
Fixpoint py_split_ws_aux (s cur : string) : list string :=
  match s with
  | EmptyString => if String.eqb cur "" then [] else [cur]
  | String c rest =>
      if py_isspace c
      then (if String.eqb cur "" then py_split_ws_aux rest ""
            else cur :: py_split_ws_aux rest "")
      else py_split_ws_aux rest (cur ++ String c "")
  end.

Definition py_split_ws (s : string) : list string := py_split_ws_aux s "".

(** main.py `calculate_counts(content)`: `(word_count, char_count)`. *)
Definition calculate_counts (content : string) : nat * nat :=
  let char_count := String.length content in
  let word_count :=
    if negb (String.eqb (py_strip content) "")
    then List.length (py_split_ws (py_strip content)) else 0%nat in
  (word_count, char_count).

(** email_auth.py `UserRegistration.validate_names`: the stripped name,
    or the validator's error. *)
Definition validate_names (v : string) : Result string :=
  if String.eqb v "" || (String.length (py_strip v) <? 1)%nat
  then Fail "Name cannot be empty"
  else if (50 <? String.length (py_strip v))%nat
  then Fail "Name cannot be longer than 50 characters"
  else Done (py_strip v).

(* ------------------------------------------------------------------ *)
(* email_auth.py: registration and password change; main.py: OAuth start *)
(* ------------------------------------------------------------------ *)

(** A `UserRegistration` that passed its validators. *)
Record UserRegistration := mkUserRegistration {
  ur_email : string;
  ur_password : string;
  ur_first_name : string;
  ur_last_name : string
}.

Record PasswordChange := mkPasswordChange {
  pc_current_password : string;
  pc_new_password : string
}.

Section Accounts.

Variable create_access_token : string -> string -> string.
(** As in the login: `None` when `bcrypt.checkpw` raises. *)
Variable verify_password : string -> string -> option bool.

(** `create_user_from_email(user_data, db)`; `new_id` is
    `str(uuid.uuid4())` and `hashed_password` is
    `hash_password(user_data.password)` (bcrypt with a random salt).  A
    duplicate primary key fails the commit, which `register_user`
    reports as 500 "Registration failed". *)
Definition create_user_from_email (new_id hashed_password : string)
    (user_data : UserRegistration) (db : DB) : DB * Outcome User :=
  match find (fun u => String.eqb (u_email u) (ur_email user_data)) (users db) with
  | Some _ => (db, Raise 400 "User with this email already exists")
  | None =>
      let new_user := mkUser new_id (ur_email user_data) (Some hashed_password) None
                        (ur_first_name user_data) (ur_last_name user_data) "local" true false in
      if existsb (fun u => String.eqb (u_id u) new_id) (users db)
      then (db, Raise 500 "Registration failed")
      else (set_users db (users db ++ [new_user]), Ok new_user)
  end.

(** POST /api/auth/register. *)
Definition register_user (new_id hashed_password : string) (user_data : UserRegistration)
    (session : Session) (db : DB) : (Session * DB) * Outcome LoginResponse :=
  match create_user_from_email new_id hashed_password user_data db with
  | (db', Raise code detail) => ((session, db'), Raise code detail)
  | (db', Ok new_user) =>
      let jwt_token := create_access_token (u_id new_user) (u_email new_user) in
      ((mkSession (Some (u_id new_user)) (s_oauth_state session) (Some jwt_token), db'),
       Ok (mkLoginResponse (u_id new_user) (u_email new_user) (u_is_admin new_user) jwt_token))
  end.

(** POST /api/auth/change-password; `new_hashed_password` is
    `hash_password(new_password)`.  The commit writes the changed
    column of the caller's row, and its `updated_at`, which the model of
    the users table does not keep; an exception of `verify_password` is
    answered 500 "Password change failed". *)
Definition change_password (new_hashed_password : string) (password_data : PasswordChange)
    (current_user : User) (db : DB) : DB * Outcome string :=
  if negb (String.eqb (u_auth_provider current_user) "local")
     || negb (truthy (u_password_hash current_user))
  then (db, Raise 400 "Password change not available for OAuth users")
  else match verify_password (pc_current_password password_data)
               (get_or (u_password_hash current_user) "") with
  | None => (db, Raise 500 "Password change failed")
  | Some false => (db, Raise 401 "Current password is incorrect")
  | Some true =>
      (set_users db (map (fun u => if String.eqb (u_id u) (u_id current_user)
                                  then mkUser (u_id u) (u_email u) (Some new_hashed_password)
                                         (u_google_id u) (u_first_name u) (u_last_name u)
                                         (u_auth_provider u) (u_is_active u) (u_is_admin u)
                                  else u) (users db)),
       Ok "Password changed successfully")
  end.

End Accounts.

(** A row of the users table with its password hash blanked: the columns
    a password change must keep. *)
Definition without_password_hash (u : User) : User :=
  mkUser (u_id u) (u_email u) None (u_google_id u) (u_first_name u) (u_last_name u)
    (u_auth_provider u) (u_is_active u) (u_is_admin u).

(** GET /api/auth/google; `state` is `secrets.token_urlsafe(32)` and
    `urlencode` builds the query string of the provider URL. *)
Definition google_auth (urlencode : list (string * string) -> string)
    (google_client_id : option string) (redirect_uri state : string) (session : Session)
  : Session * Outcome Response :=
  if negb (truthy google_client_id)
  then (session, Raise 500 "Google OAuth not configured")
  else
    let oauth_params := [("client_id", get_or google_client_id ""); ("redirect_uri", redirect_uri);
                         ("scope", "openid email profile"); ("response_type", "code");
                         ("state", state); ("access_type", "online");
                         ("prompt", "select_account")] in
    (mkSession (s_user_id session) (Some state) (s_access_token session),
     Ok (RedirectResponse ("https://accounts.google.com/o/oauth2/auth?" ++ urlencode oauth_params))).

(* ------------------------------------------------------------------ *)
(* main.py: user statistics, MCP endpoints, logout, Markdown tags       *)
(* ------------------------------------------------------------------ *)

(** Response of GET /api/user/stats (the columns `subscription_tier` and
    `created_at` are not part of the model). *)
Record UserStats := mkUserStats {
  us_id : string;
  us_name : string;
  us_email : string;
  us_is_admin : bool;
  us_total : nat;
  us_public : nat;
  us_private : Z
}.

(** GET /api/user/stats.  Python integers: `private = total - public`. *)
Definition get_user_stats (hash_token : string -> string)
    (verify_token : string -> option (option string)) (now : Z) (request : Request) (db : DB)
  : DB * Outcome UserStats :=
  let (db1, cu) := get_current_user_or_token hash_token verify_token now db request in
  match cu with
  | None => (db1, Raise 401 "Not authenticated")
  | Some current_user =>
      let total_prompts :=
        List.length (filter (fun p => String.eqb (p_user_id p) (u_id current_user)) (prompts db1)) in
      let public_prompts :=
        List.length (filter (fun p => String.eqb (p_user_id p) (u_id current_user)
                                      && Bool.eqb (p_is_public p) true) (prompts db1)) in
      let private_prompts := (Z.of_nat total_prompts - Z.of_nat public_prompts)%Z in
      let name := py_strip (u_first_name current_user ++ " " ++ u_last_name current_user) in
      (db1, Ok (mkUserStats (u_id current_user)
                  (if String.eqb name "" then u_email current_user else name)
                  (u_email current_user) (u_is_admin current_user)
                  total_prompts public_prompts private_prompts))
  end.

(** The filter `(Prompt.is_public == True) | (Prompt.user_id == current_user.id)`
    of the MCP endpoints. *)
Definition mcp_accessible (current_user : User) (p : Prompt) : bool :=
  Bool.eqb (p_is_public p) true || String.eqb (p_user_id p) (u_id current_user).

(** One element of the `prompts` list of GET /api/mcp/prompts (its
    `arguments`, built from the `variables` column, are not modelled). *)
Record McpPromptView := mkMcpPromptView {
  mv_name : string;
  mv_description : string
}.

(** GET /api/mcp/prompts: `.limit(50).all()` in table order. *)
Definition mcp_get_prompts (hash_token : string -> string)
    (verify_token : string -> option (option string)) (now : Z) (request : Request) (db : DB)
  : DB * Outcome (list McpPromptView) :=
  let (db1, cu) := get_current_user_or_token hash_token verify_token now db request in
  match cu with
  | None => (db1, Raise 401 "API token required")
  | Some current_user =>
      let ps := firstn 50 (filter (mcp_accessible current_user) (prompts db1)) in
      (db1, Ok (map (fun p => mkMcpPromptView (p_title p) (get_or (p_description p) "")) ps))
  end.

(** `s.replace(old, new)` for a non-empty `old`: replace every
    non-overlapping occurrence, scanning left to right.  The fuel is the
    length of `s`; every step consumes at least one character. *)
Fixpoint py_replace_fuel (fuel : nat) (old new s : string) : string :=
  match fuel with
  | O => s
  | S fuel' =>
      match s with
      | EmptyString => EmptyString
      | String c rest =>
          if String.prefix old s
          then new ++ py_replace_fuel fuel' old new
                        (substring (String.length old) (String.length s - String.length old) s)
          else String c (py_replace_fuel fuel' old new rest)
      end
  end.

Definition py_replace (old new s : string) : string :=
  py_replace_fuel (String.length s) old new s.

(** POST /api/mcp/prompts/{prompt_name}.  `ilike title pattern` is SQL
    `title ILIKE pattern`; `arguments` is the body's `arguments` dict in
    iteration order with each value rendered by `str`, and `None` when
    the body is not a JSON object (the handler then answers 500). *)
Definition mcp_get_prompt (ilike : string -> string -> bool) (hash_token : string -> string)
    (verify_token : string -> option (option string)) (now : Z) (prompt_name : string)
    (arguments : option (list (string * string))) (request : Request) (db : DB)
  : DB * Outcome string :=
  let (db1, cu) := get_current_user_or_token hash_token verify_token now db request in
  match cu with
  | None => (db1, Raise 401 "API token required")
  | Some current_user =>
      match find (fun p => ilike (p_title p) ("%" ++ prompt_name ++ "%")
                           && mcp_accessible current_user p) (prompts db1) with
      | None => (db1, Raise 404 "Prompt not found")
      | Some prompt =>
          match arguments with
          | None => (db1, Raise 500 "Internal server error")
          | Some args =>
              (db1, Ok (fold_left (fun content kv => py_replace ("{" ++ fst kv ++ "}") (snd kv) content)
                          args (p_content prompt)))
          end
      end
  end.

(** GET /api/auth/logout: `request.session.clear()`. *)
Definition logout (session : Session) : Session * string :=
  (empty_session, "Logged out successfully").

(** `s.split(sep)` for a one-character separator: keeps empty pieces. *)
Fixpoint py_split_sep_aux (sep : ascii) (s cur : string) : list string :=
  match s with
  | EmptyString => [cur]
  | String c rest =>
      if Ascii.eqb c sep then cur :: py_split_sep_aux sep rest ""
      else py_split_sep_aux sep rest (cur ++ String c "")
  end.

Definition py_split_sep (sep : ascii) (s : string) : list string := py_split_sep_aux sep s "".

(** `parse_markdown_prompts`, the `**Tags:**` line:
    `[tag.strip() for tag in value.split(',') if tag.strip()]`. *)
Definition parse_tags (value : string) : list string :=
  filter (fun tag => negb (String.eqb tag "")) (map py_strip (py_split_sep "," value)).

(* ------------------------------------------------------------------ *)
(* main.py: prompt listing and the MCP configuration of a token          *)
(* ------------------------------------------------------------------ *)

(** `str.lower` on a code point below 256: `A`..`Z` and `À`..`Þ`
    except `×`. *)
Definition py_lower_char (c : ascii) : ascii :=
  let n := nat_of_ascii c in
  if ((65 <=? n) && (n <=? 90))%nat || ((192 <=? n) && (n <=? 222) && negb (n =? 215))%nat
  then ascii_of_nat (n + 32) else c.

Definition py_lower (s : string) : string :=
  string_of_list_ascii (map py_lower_char (list_ascii_of_string s)).

(** `sortBy in valid_sort_fields` *)
Definition valid_sort_field (sortBy : string) : bool :=
  existsb (String.eqb sortBy) ["title"; "category"; "created_at"; "createdAt"].

(** The column `valid_sort_fields[sortBy]` after the fallback to
    `created_at`; `createdAt` names the same column. *)
Definition sort_column (sortBy : string) : string :=
  let sortBy := if valid_sort_field sortBy then sortBy else "created_at" in
  if String.eqb sortBy "createdAt" then "created_at" else sortBy.

(** Whether the query is ordered by `sort_column.desc()`. *)
Definition sort_descending (sortOrder : string) : bool :=
  let sortOrder := if existsb (String.eqb (py_lower sortOrder)) ["asc"; "desc"]
                   then sortOrder else "desc" in
  String.eqb (py_lower sortOrder) "desc".

(** GET /api/prompts.  `order_by column descending` is the SQL ORDER BY
    of the rows (the `created_at` column is not part of the model); the
    listing is `(prompts, total)`. *)
Definition get_prompts (order_by : string -> bool -> list Prompt -> list Prompt)
    (hash_token : string -> string) (verify_token : string -> option (option string))
    (now : Z) (sortBy sortOrder : string) (request : Request) (db : DB)
  : DB * Outcome (list PromptView * nat) :=
  let (db1, cu) := get_current_user_or_token hash_token verify_token now db request in
  match cu with
  | None => (db1, Raise 401 "Authentication required")
  | Some current_user =>
      let ps := firstn 50 (order_by (sort_column sortBy) (sort_descending sortOrder)
                             (filter (mcp_accessible current_user) (prompts db1))) in
      (db1, Ok (map (fun p => prompt_view p (String.eqb (p_user_id p) (u_id current_user))) ps,
                List.length ps))
  end.

(** Response of GET /api/tokens/{token_id}/mcp-config (the constant
    parts of `mcp_config` and the installation text are left out). *)
Record McpConfig := mkMcpConfig {
  mc_token_name : string;
  mc_token_id : string;
  mc_access_token : string;
  mc_owner_user_id : string
}.

Definition get_mcp_config (token_id : string) (current_user : User) (db : DB) : Outcome McpConfig :=
  match query_owned_token db token_id current_user with
  | None => Raise 404 "Token not found"
  | Some token =>
      if negb (String.eqb (tok_user_id token) (u_id current_user))
      then Raise 403 "Access denied"
      else Ok (mkMcpConfig (tok_name token) (tok_id token) "YOUR_API_TOKEN_HERE" (tok_user_id token))
  end.

(** The tokens' usage counters summed over the table. *)
Definition total_usage (ts : list Token) : Z :=
  fold_right (fun t acc => (tok_usage_count t + acc)%Z) 0%Z ts.

(** Characters other than whitespace. *)
Definition nonspace (c : ascii) : bool := negb (py_isspace c).

(* ================================================================== *)
(* A small concrete database                                            *)
(* ================================================================== *)

Module Fixtures.

Definition sha256_demo (s : string) : string := "sha256:" ++ s.
Definition jwt_decode_none (token : string) : option (option string) := None.
Definition bcrypt_demo (password hashed : string) : option bool :=
  Some (String.eqb hashed ("bcrypt:" ++ password)).
Definition jwt_encode_demo (sub email : string) : string := "jwt:" ++ sub.
Definition token_endpoint_down (code : string) : option (Z * option string) := None.
Definition userinfo_down (access_token : string) : option (Z * GoogleUserInfo) := None.

Definition alice : User :=
  mkUser "alice" "alice@x.com" (Some "bcrypt:Passw0rd") None "Alice" "A" "local" true false.
Definition bob : User :=
  mkUser "bob" "bob@x.com" (Some "bcrypt:S3cret99") None "Bob" "B" "local" true true.
Definition carol : User :=
  mkUser "carol" "carol@x.com" None (Some "g-carol") "Carol" "C" "google" false false.

Definition tok_bob : Token :=
  mkToken "t-bob" "cli" "" (sha256_demo "bob-secret") "bob" true None 0 ["read"] None.
Definition tok_alice : Token :=
  mkToken "t-alice" "old" "" (sha256_demo "alice-secret") "alice" true None 3 ["read"]
    (Some 1000%Z).
Definition tok_alice_revoked : Token :=
  mkToken "t-alice" "old" "" (sha256_demo "alice-secret") "alice" false None 3 ["read"]
    (Some 1000%Z).

Definition prompt_alice_private : Prompt :=
  mkPrompt "p1" "Title" None "body" None [] false "alice".

Definition db_demo : DB :=
  mkDB [alice; bob; carol] [prompt_alice_private] [tok_bob; tok_alice].
Definition db_revoked : DB := set_tokens db_demo [tok_bob; tok_alice_revoked].

Definition request_anonymous : Request := mkRequest empty_session None None.
Definition request_session (user_id : string) : Request :=
  mkRequest (mkSession (Some user_id) None None) None None.
Definition request_api_token (token : string) : Request :=
  mkRequest empty_session None (Some token).

Definition token_body_default : TokenCreateBody := mkTokenCreateBody None None None.
Definition token_patch_deactivate : TokenPatch := mkTokenPatch None None (Some false) None.
Definition prompt_body_no_owner : PromptCreateBody :=
  mkPromptCreateBody (JVal "T") JAbsent (JVal "c") JAbsent JAbsent JAbsent JAbsent.
Definition prompt_body_null_owner : PromptCreateBody :=
  mkPromptCreateBody (JVal "T") JAbsent (JVal "c") JAbsent JNull JAbsent JAbsent.

(** The lengths MySQL checks in strict mode on a prompt row: title
    VARCHAR(500), category and user_id VARCHAR(255), content and
    description TEXT (65535 bytes). *)
Definition prompt_varchar_limits (p : Prompt) : bool :=
  (String.length (p_title p) <=? 500)%nat
  && (String.length (p_content p) <=? 255 * 257)%nat
  && (String.length (get_or (p_description p) "") <=? 255 * 257)%nat
  && (String.length (get_or (p_category p) "") <=? 255)%nat
  && (String.length (p_user_id p) <=? 255)%nat.
Definition prompt_patch_title : PromptPatch := mkPromptPatch (Some "New") None None None None None.

Definition dave_registration : UserRegistration :=
  mkUserRegistration "dave@x.com" "pw-dave" "Dave" "D".
Definition alice_password_change : PasswordChange := mkPasswordChange "Passw0rd" "N3wpass!".
Definition google_profile_alice : GoogleUserInfo :=
  mkGoogleUserInfo (Some "g-alice") (Some "alice@x.com") (Some "Alice") None None.
(** A profile of the v2 userinfo endpoint, which has `id` but no `sub`. *)
Definition google_profile_bob_v2 : GoogleUserInfo :=
  mkGoogleUserInfo None (Some "bob@x.com") (Some "Bob") None None.
Definition urlencode_demo (params : list (string * string)) : string :=
  String.concat "&" (map (fun kv => fst kv ++ "=" ++ snd kv) params).

(** `title ILIKE pattern` for a pattern matching exactly the titles it
    names between `%` signs. *)
Definition ilike_whole_title (title pattern : string) : bool :=
  String.eqb pattern ("%" ++ title ++ "%").

(** ORDER BY on a table kept in creation order. *)
Definition order_by_creation (column : string) (descending : bool) (l : list Prompt) : list Prompt :=
  if descending then rev l else l.

End Fixtures.

Import Fixtures.

(** Membership in a concrete list, one case per element. *)
Ltac in_cases H := simpl in H; repeat destruct H as [<-|H]; try contradiction.

(* ================================================================== *)
(* Statements of the spec side                                          *)
(* ================================================================== *)



(** The two credential checks of `get_current_user`, in source order. *)
Definition session_principal (db : DB) (request : Request) : option User :=
  let user_id := s_user_id (req_session request) in
  if truthy user_id then query_user_by_id db (get_or user_id "") else None.

Definition jwt_principal (verify_token : string -> option (option string))
    (db : DB) (request : Request) : option User :=
  match req_authorization request with
  | Some authorization =>
      if String.prefix "Bearer " authorization then
        match verify_token (nth 1 (py_split_space authorization) "") with
        | Some sub => if truthy sub then query_user_by_id db (get_or sub "") else None
        | None => None
        end
      else None
  | None => None
  end.

(* ================================================================== *)
(* Lemmas on queries                                                    *)
(* ================================================================== *)

Create HintDb queries.

Lemma find_unique_sat {A} (f : A -> bool) (l : list A) (x : A) :
  In x l -> f x = true -> (forall y, In y l -> f y = true -> y = x) -> find f l = Some x.
Proof.
  induction l as [|a l IH]; intros Hin Hx Hu; [destruct Hin|]. simpl.
  destruct (f a) eqn:Ha.
  - now rewrite (Hu a (or_introl eq_refl) Ha).
  - destruct Hin as [<-|Hin]; [congruence|].
    apply IH; auto. intros y Hy Hfy. apply Hu; auto. now right.
Qed.

Lemma find_all_false {A} (f : A -> bool) (l : list A) :
  (forall y, In y l -> f y = false) -> find f l = None.
Proof.
  induction l as [|a l IH]; intros H; simpl; [reflexivity|].
  rewrite (H a (or_introl eq_refl)). apply IH. intros y Hy. apply H. now right.
Qed.

Lemma find_app_last {A} (f : A -> bool) (l : list A) (x : A) :
  (forall y, In y l -> f y = false) -> f x = true -> find f (l ++ [x]) = Some x.
Proof.
  induction l as [|a l IH]; intros H Hx; simpl.
  - now rewrite Hx.
  - rewrite (H a (or_introl eq_refl)). apply IH; [|exact Hx].
    intros y Hy. apply H. now right.
Qed.


Lemma existsb_all_false {A} (f : A -> bool) (l : list A) :
  (forall y, In y l -> f y = false) -> existsb f l = false.
Proof.
  induction l as [|a l IH]; intros H; simpl; [reflexivity|].
  rewrite (H a (or_introl eq_refl)). apply IH. intros y Hy. apply H. now right.
Qed.

Lemma users_commit_token db t : users (commit_token db t) = users db.
Proof. reflexivity. Qed.

Lemma prompts_verify_api_token hash_token now token db :
  prompts (fst (verify_api_token hash_token now token db)) = prompts db.
Proof.
  unfold verify_api_token.
  destruct (String.eqb token ""); [reflexivity|].
  destruct (find _ _); reflexivity.
Qed.

Lemma prompts_resolver hash_token verify_token now db request :
  prompts (fst (get_current_user_or_token hash_token verify_token now db request)) = prompts db.
Proof.
  unfold get_current_user_or_token.
  destruct (get_current_user verify_token db request); [reflexivity|].
  destruct (negb _); [apply prompts_verify_api_token|reflexivity].
Qed.

Lemma query_owned_token_owner db token_id current_user t :
  query_owned_token db token_id current_user = Some t ->
  tok_id t = token_id /\ tok_user_id t = u_id current_user.
Proof.
  unfold query_owned_token. intros H.
  apply find_some in H as [_ H].
  apply andb_prop in H as [H1 H2].
  split; now apply String.eqb_eq.
Qed.

Lemma query_owned_token_none db token_id current_user :
  (forall t, In t (tokens db) -> tok_id t = token_id -> tok_user_id t <> u_id current_user) ->
  query_owned_token db token_id current_user = None.
Proof.
  intros H. unfold query_owned_token. apply find_all_false.
  intros t Ht.
  destruct (String.eqb_spec (tok_id t) token_id) as [E|]; [|reflexivity].
  destruct (String.eqb_spec (tok_user_id t) (u_id current_user)) as [E'|]; [|reflexivity].
  exfalso. exact (H t Ht E E').
Qed.

#[global] Hint Resolve query_owned_token_none find_all_false : queries.

(* ================================================================== *)
(* Token management                                                     *)
(* ================================================================== *)

(** C10: the query of update_token and delete_token filters on the token
    id and the caller's id, so every fetched row is owned by the caller
    and the "Access denied" (403) branch of both handlers never fires. *)
Theorem token_owner_recheck_unreachable :
  forall token_id body current_user db,
    (forall t, query_owned_token db token_id current_user = Some t ->
               tok_user_id t = u_id current_user) /\
    snd (update_token token_id body current_user db) <> Raise 403 "Access denied" /\
    snd (delete_token token_id current_user db) <> Raise 403 "Access denied".
Proof.
  intros token_id body current_user db.
  split; [intros t Ht; now apply query_owned_token_owner in Ht|].
  unfold update_token, delete_token.
  destruct (query_owned_token db token_id current_user) as [t|] eqn:Hq.
  - apply query_owned_token_owner in Hq as [_ Ho].
    rewrite Ho, String.eqb_refl. simpl.
    split; [destruct body; discriminate|discriminate].
  - split; discriminate.
Qed.

(** C1: user A's token list holds only A's tokens, and update or delete of
    a token owned by another user B answers 404 "Token not found" without
    changing the database, exactly as for an id that names no token. *)
Theorem token_isolation_between_users :
  forall (A B : User) db token_id absent_id body,
    u_id A <> u_id B ->
    (forall t, In t (tokens db) -> tok_id t = token_id -> tok_user_id t = u_id B) ->
    (forall t, In t (tokens db) -> tok_id t <> absent_id) ->
    (exists tl, get_tokens A db = Ok tl /\
       (forall v, In v (tl_tokens tl) -> tv_owner_user_id v = u_id A) /\
       (forall t, In t (tokens db) -> tok_user_id t = u_id B -> ~ In (token_view t) (tl_tokens tl))) /\
    update_token token_id body A db = (db, Raise 404 "Token not found") /\
    delete_token token_id A db = (db, Raise 404 "Token not found") /\
    update_token token_id body A db = update_token absent_id body A db /\
    delete_token token_id A db = delete_token absent_id A db.
Proof.
  intros A B db token_id absent_id body Hab HB Habs.
  assert (HqB : query_owned_token db token_id A = None).
  { apply query_owned_token_none. intros t Ht Hid. rewrite (HB t Ht Hid). congruence. }
  assert (Hq0 : query_owned_token db absent_id A = None).
  { apply query_owned_token_none. intros t Ht Hid. exfalso. exact (Habs t Ht Hid). }
  assert (Hlist : forall v, In v (map token_view
                    (filter (fun t => String.eqb (tok_user_id t) (u_id A)) (tokens db))) ->
                    tv_owner_user_id v = u_id A).
  { intros v Hv. apply in_map_iff in Hv as [t [<- Ht]].
    apply filter_In in Ht as [_ Ht]. now apply String.eqb_eq. }
  split.
  - unfold get_tokens.
    rewrite existsb_all_false.
    + eexists. split; [reflexivity|]. simpl. split; [exact Hlist|].
      intros t _ HtB Hin. apply Hlist in Hin. simpl in Hin. congruence.
    + intros t Ht. apply filter_In in Ht as [_ Ht]. now rewrite Ht.
  - unfold update_token, delete_token. rewrite HqB, Hq0. repeat split.
Qed.

Lemma verify_api_token_no_match hash_token now token db :
  (forall t, In t (tokens db) -> tok_token_hash t = hash_token token -> tok_is_active t = false) ->
  snd (verify_api_token hash_token now token db) = None.
Proof.
  intros H. unfold verify_api_token.
  destruct (String.eqb token ""); [reflexivity|].
  rewrite find_all_false; [reflexivity|].
  intros t Ht.
  destruct (String.eqb_spec (tok_token_hash t) (hash_token token)) as [E|]; [|reflexivity].
  now rewrite (H t Ht E).
Qed.

Lemma verify_api_token_match hash_token now token db t u :
  token <> "" ->
  find (fun t => String.eqb (tok_token_hash t) (hash_token token) && Bool.eqb (tok_is_active t) true)
       (tokens db) = Some t ->
  query_user_by_id db (tok_user_id t) = Some u ->
  snd (verify_api_token hash_token now token db) = Some u.
Proof.
  intros Hne Hf Hu. unfold verify_api_token.
  apply String.eqb_neq in Hne. rewrite Hne, Hf. exact Hu.
Qed.


(** C6 (amended): verification of a secret fails whenever every row
    carrying its hash is inactive; for an active row it resolves the
    owner, whatever the row's `expires_at`: expiry is not checked. *)
Theorem verify_api_token_active_flag_only :
  forall hash_token now token db,
    ((forall t, In t (tokens db) -> tok_token_hash t = hash_token token ->
                tok_is_active t = false) ->
     snd (verify_api_token hash_token now token db) = None) /\
    (forall t u, token <> "" ->
       find (fun t => String.eqb (tok_token_hash t) (hash_token token)
                      && Bool.eqb (tok_is_active t) true) (tokens db) = Some t ->
       query_user_by_id db (tok_user_id t) = Some u ->
       snd (verify_api_token hash_token now token db) = Some u).
Proof.
  intros hash_token now token db. split.
  - apply verify_api_token_no_match.
  - intros t u. apply verify_api_token_match.
Qed.

(* ================================================================== *)
(* Prompts                                                              *)
(* ================================================================== *)



(** C3 (amended): POST /api/prompts reads no credential (the handler has
    no request argument beyond its body).  For a JSON object body whose
    keys are absent, null or of their columns' types: when title,
    content and user_id are not null, a prompt is created and committed
    exactly when the database accepts the row, and its owner is the
    body's `user_id`, or "anonymous" when the key is absent; a null
    title, content or user_id is answered 500 and creates nothing.  A
    body that is not a JSON object is answered 500 and creates nothing.
    Hypothesis: the uuid is fresh. *)
Theorem create_prompt_unauthenticated :
  forall prompt_row_fits new_id data db,
    (forall p, In p (prompts db) -> p_id p <> new_id) ->
    create_prompt prompt_row_fits new_id None db = (db, Raise 500 "Internal server error") /\
    (pcb_title data = JNull \/ pcb_content data = JNull \/ pcb_user_id data = JNull ->
     create_prompt prompt_row_fits new_id (Some data) db
       = (db, Raise 500 "Internal server error")) /\
    (pcb_title data <> JNull -> pcb_content data <> JNull -> pcb_user_id data <> JNull ->
     exists p,
       p_id p = new_id /\
       p_user_id p = (match pcb_user_id data with JVal u => u | _ => "anonymous" end) /\
       create_prompt prompt_row_fits new_id (Some data) db
       = if prompt_row_fits p
         then (set_prompts db (prompts db ++ [p]), Ok (prompt_view p false))
         else (db, Raise 500 "Internal server error")).
Proof.
  intros fits new_id data db Hfresh. split; [reflexivity|]. unfold create_prompt.
  destruct (pcb_title data) as [| |t], (pcb_content data) as [| |c],
    (pcb_user_id data) as [| |u]; cbn [jget_not_null];
    (split; [intros H; (reflexivity || (exfalso; intuition discriminate))|]);
    intros Ht Hc Hu; try (exfalso; congruence);
    rewrite existsb_all_false
      by (intros p Hp; apply String.eqb_neq; exact (Hfresh p Hp));
    cbn [orb];
    match goal with |- context [fits ?q] => exists q end;
    (split; [reflexivity|]); (split; [reflexivity|]);
    match goal with |- context [fits ?p] => destruct (fits p) end;
    reflexivity.
Qed.

(* ================================================================== *)
(* Access resolver                                                      *)
(* ================================================================== *)

(** C5 (amended): `get_current_user_or_token` tries the session's user id,
    then a bearer JWT, then an API token (`X-API-Token`, else the
    Authorization header without "Bearer "), and returns the first
    principal found; `require_auth` wraps `get_current_user` only, so it
    raises 401 exactly when neither the session nor a bearer JWT resolves
    a user, API tokens not being consulted. *)
Theorem resolver_order_and_require_auth :
  forall hash_token verify_token now db request,
    get_current_user verify_token db request =
      match session_principal db request with
      | Some u => Some u
      | None => jwt_principal verify_token db request
      end /\
    get_current_user_or_token hash_token verify_token now db request =
      match session_principal db request with
      | Some u => (db, Some u)
      | None =>
          match jwt_principal verify_token db request with
          | Some u => (db, Some u)
          | None =>
              if String.eqb (api_token_of request) "" then (db, None)
              else verify_api_token hash_token now (api_token_of request) db
          end
      end /\
    (require_auth verify_token db request = Raise 401 "Authentication required" <->
       session_principal db request = None /\ jwt_principal verify_token db request = None) /\
    (forall u, require_auth verify_token db request = Ok u <->
       get_current_user verify_token db request = Some u).
Proof.
  intros hash_token verify_token now db request.
  assert (Hg : get_current_user verify_token db request =
                 match session_principal db request with
                 | Some u => Some u
                 | None => jwt_principal verify_token db request
                 end) by reflexivity.
  split; [exact Hg|].
  unfold get_current_user_or_token, require_auth. rewrite Hg.
  destruct (session_principal db request) as [u|];
    [|destruct (jwt_principal verify_token db request) as [u|]];
    simpl; repeat split; intros; try discriminate; try congruence;
    try (destruct H; discriminate).
  destruct (String.eqb (api_token_of request) ""); reflexivity.
Qed.

(** C7 (amended): the session step returns the user stored under the
    session's `user_id`, whatever its `is_active` flag. *)
Theorem session_user_is_active_not_checked :
  forall verify_token db request user_id user,
    s_user_id (req_session request) = Some user_id -> user_id <> "" ->
    query_user_by_id db user_id = Some user ->
    get_current_user verify_token db request = Some user.
Proof.
  intros verify_token db request uid user Hs Hne Hq.
  unfold get_current_user, truthy. rewrite Hs.
  apply String.eqb_neq in Hne. rewrite Hne. simpl. now rewrite Hq.
Qed.

(* ================================================================== *)
(* Login                                                                *)
(* ================================================================== *)


(* ================================================================== *)
(* Google OAuth callback                                                *)
(* ================================================================== *)

Lemma create_or_update_user_from_google_session new_id info session db :
  fst (fst (create_or_update_user_from_google new_id info (session, db))) = session.
Proof.
  unfold create_or_update_user_from_google.
  destruct (find _ _); [destruct (existsb _ _)|destruct (gi_email info)]; reflexivity.
Qed.

Lemma state_check_rejects (state session_state : option string) :
  ~ (truthy state = true /\ state = session_state) ->
  negb (truthy state) || negb (truthy session_state)
  || negb (String.eqb (get_or state "") (get_or session_state "")) = true.
Proof.
  intros H. destruct (truthy state) eqn:Ht; [|reflexivity].
  destruct state as [s|]; [|discriminate].
  destruct session_state as [s'|]; [|reflexivity].
  unfold truthy in *. simpl.
  destruct (String.eqb_spec s' ""); [reflexivity|]. simpl.
  destruct (String.eqb_spec s s') as [<-|]; [|reflexivity].
  exfalso. apply H. split; reflexivity.
Qed.

Lemma state_check_accepts (state : option string) (session : Session) :
  truthy state = true -> state = s_oauth_state session ->
  negb (truthy state) || negb (truthy (s_oauth_state session))
  || negb (String.eqb (get_or state "") (get_or (s_oauth_state session) "")) = false.
Proof.
  intros Ht <-. rewrite Ht, String.eqb_refl. reflexivity.
Qed.

Lemma classic_state (state : option string) (session : Session) :
  (truthy state = true /\ state = s_oauth_state session) \/
  ~ (truthy state = true /\ state = s_oauth_state session).
Proof.
  destruct (truthy state) eqn:Ht; [|right; intros [H _]; discriminate].
  destruct state as [s|]; [|discriminate].
  destruct (s_oauth_state session) as [s'|] eqn:Hs.
  - destruct (String.eqb_spec s s') as [<-|Hne]; [left; now split|].
    right. intros [_ H]. congruence.
  - right. intros [_ H]. discriminate.
Qed.

Lemma google_callback_body_rejects cat pte gui state code new_id session db :
  ~ (truthy state = true /\ state = s_oauth_state session) ->
  google_callback_body cat pte gui state code new_id (session, db)
    = ((session, db), Fail "Invalid state parameter").
Proof.
  intros H. unfold google_callback_body. simpl fst.
  rewrite (state_check_rejects _ _ H). reflexivity.
Qed.

Lemma google_callback_body_accepts cat pte gui state code new_id session db :
  truthy state = true -> state = s_oauth_state session ->
  s_oauth_state (fst (fst (google_callback_body cat pte gui state code new_id (session, db))))
    = None /\
  (forall url, snd (google_callback_body cat pte gui state code new_id (session, db)) = Done url ->
               url = "/dashboard?auth=success").
Proof.
  intros Ht Heq. unfold google_callback_body. simpl fst.
  rewrite (state_check_accepts _ _ Ht Heq).
  unfold cb_bind, cb_modify, cb_fail, cb_ret. cbn -[create_or_update_user_from_google].
  destruct (truthy code); cbn -[create_or_update_user_from_google]; [|split; [reflexivity|discriminate]].
  destruct (pte (get_or code "")) as [[status access_token]|];
    [|split; [reflexivity|discriminate]].
  destruct (Z.eqb status 200); cbn -[create_or_update_user_from_google]; [|split; [reflexivity|discriminate]].
  destruct (truthy access_token); cbn -[create_or_update_user_from_google]; [|split; [reflexivity|discriminate]].
  destruct (gui (get_or access_token "")) as [[status2 info]|];
    [|split; [reflexivity|discriminate]].
  destruct (Z.eqb status2 200); cbn -[create_or_update_user_from_google]; [|split; [reflexivity|discriminate]].
  pose proof (create_or_update_user_from_google_session new_id info
                (mkSession (s_user_id session) None (s_access_token session)) db) as Hs.
  destruct (create_or_update_user_from_google new_id info
              (mkSession (s_user_id session) None (s_access_token session), db))
    as [[s' db'] [user|reason]].
  - simpl in Hs |- *. subst s'. split; [reflexivity|]. intros url Hu. congruence.
  - simpl in Hs |- *. subst s'. split; [reflexivity|discriminate].
Qed.

(** C9 (amended): the callback always answers with a redirect of
    Starlette's default status 307: to "/dashboard?auth=success" when
    every step succeeds and to "/?auth=error" on any failure, with no
    provider text in the response.  A missing presented state, a missing
    stored state or two different states are rejected before anything
    else happens (session and database unchanged); once the states
    match, the stored state is removed from the session whatever
    happens next. *)
Theorem google_callback_state_and_redirects :
  forall cat pte gui state code new_id session db,
    status_code (snd (google_callback cat pte gui state code new_id session db)) = 307%Z /\
    (forall reason, snd (google_callback_body cat pte gui state code new_id (session, db))
                    = Fail reason ->
       location (snd (google_callback cat pte gui state code new_id session db))
         = "/?auth=error") /\
    (forall url, snd (google_callback_body cat pte gui state code new_id (session, db))
                 = Done url ->
       location (snd (google_callback cat pte gui state code new_id session db))
         = "/dashboard?auth=success") /\
    (~ (truthy state = true /\ state = s_oauth_state session) ->
       google_callback cat pte gui state code new_id session db
         = ((session, db), RedirectResponse "/?auth=error")) /\
    (truthy state = true -> state = s_oauth_state session ->
       s_oauth_state (fst (fst (google_callback cat pte gui state code new_id session db)))
         = None).
Proof.
  intros cat pte gui state code new_id session db.
  unfold google_callback.
  split; [|split; [|split; [|split]]].
  - destruct (google_callback_body _ _ _ _ _ _ _) as [st [url|reason]]; reflexivity.
  - intros reason Hr.
    destruct (google_callback_body _ _ _ _ _ _ _) as [st r]. simpl in Hr. now subst r.
  - intros url Hr.
    destruct (google_callback_body cat pte gui state code new_id (session, db)) as [st r] eqn:E.
    simpl in Hr. subst r. simpl.
    destruct (classic_state state session) as [[Ht Heq]|Hn].
    + pose proof (google_callback_body_accepts cat pte gui state code new_id session db Ht Heq)
        as [_ Hd].
      rewrite E in Hd. exact (Hd url eq_refl).
    + rewrite (google_callback_body_rejects cat pte gui state code new_id session db Hn) in E.
      discriminate.
  - intros Hn. now rewrite (google_callback_body_rejects cat pte gui state code new_id session db Hn).
  - intros Ht Heq.
    pose proof (google_callback_body_accepts cat pte gui state code new_id session db Ht Heq)
      as [Hs _].
    destruct (google_callback_body cat pte gui state code new_id (session, db)) as [st r].
    destruct r; exact Hs.
Qed.

(* ================================================================== *)
(* Witnesses and counterexamples on the concrete database               *)
(* ================================================================== *)

Lemma token_owner_recheck_unreachable_witness :
  query_owned_token db_demo "t-bob" bob = Some tok_bob /\ tok_user_id tok_bob = u_id bob.
Proof.
  split; [reflexivity|].
  apply (proj1 (token_owner_recheck_unreachable "t-bob" None bob db_demo)). reflexivity.
Defined.

Lemma token_isolation_between_users_witness :
  update_token "t-bob" None alice db_demo = (db_demo, Raise 404 "Token not found") /\
  delete_token "t-bob" alice db_demo = delete_token "t-none" alice db_demo.
Proof.
  destruct (token_isolation_between_users alice bob db_demo "t-bob" "t-none" None)
    as [_ [Hu [_ [_ Hd]]]].
  - discriminate.
  - intros t Ht Hid. in_cases Ht; [reflexivity|discriminate].
  - intros t Ht. in_cases Ht; discriminate.
  - split; [exact Hu|exact Hd].
Defined.


(** The resolver accepts bob's API token, `require_auth` refuses it. *)
Lemma api_token_principal_refused_by_require_auth :
  snd (get_current_user_or_token sha256_demo jwt_decode_none 10 db_demo
         (request_api_token "bob-secret")) = Some bob /\
  require_auth jwt_decode_none db_demo (request_api_token "bob-secret")
    = Raise 401 "Authentication required".
Proof. split; vm_compute; reflexivity. Qed.

(** An active token whose `expires_at` (1000) lies before `now` (2000)
    still verifies. *)
Lemma expired_token_still_verifies :
  tok_expires_at tok_alice = Some 1000%Z /\ (1000 < 2000)%Z /\ tok_is_active tok_alice = true /\
  snd (verify_api_token sha256_demo 2000 "alice-secret" db_demo) = Some alice.
Proof. split; [reflexivity|split; [lia|split; [reflexivity|]]]. vm_compute. reflexivity. Qed.

Lemma verify_api_token_active_flag_only_witness :
  snd (verify_api_token sha256_demo 2000 "alice-secret" db_revoked) = None.
Proof.
  apply (proj1 (verify_api_token_active_flag_only sha256_demo 2000 "alice-secret" db_revoked)).
  intros t Ht. in_cases Ht; [discriminate|reflexivity].
Defined.


(** A request with no credentials whose body is not a JSON object, or a
    JSON object with a null user_id: 500 and no prompt. *)
Lemma create_prompt_malformed_body_creates_nothing :
  create_prompt prompt_varchar_limits "p2" None db_demo
    = (db_demo, Raise 500 "Internal server error") /\
  create_prompt prompt_varchar_limits "p2" (Some prompt_body_null_owner) db_demo
    = (db_demo, Raise 500 "Internal server error") /\
  prompts (fst (create_prompt prompt_varchar_limits "p2" None db_demo)) = [prompt_alice_private].
Proof. split; [reflexivity|split; reflexivity]. Qed.

Lemma create_prompt_unauthenticated_witness :
  exists p,
    p_id p = "p2" /\ p_user_id p = "anonymous" /\
    create_prompt prompt_varchar_limits "p2" (Some prompt_body_no_owner) db_demo
    = if prompt_varchar_limits p
      then (set_prompts db_demo (prompts db_demo ++ [p]), Ok (prompt_view p false))
      else (db_demo, Raise 500 "Internal server error").
Proof.
  destruct (create_prompt_unauthenticated prompt_varchar_limits "p2" prompt_body_no_owner db_demo)
    as [_ [_ H]].
  - intros p Hp. in_cases Hp. discriminate.
  - apply H; discriminate.
Defined.

(** A session bound to the inactive user carol yields carol. *)
Lemma inactive_session_user_resolved :
  u_is_active carol = false /\
  get_current_user jwt_decode_none db_demo (request_session "carol") = Some carol.
Proof. split; reflexivity. Qed.

Lemma session_user_is_active_not_checked_witness :
  get_current_user jwt_decode_none db_demo (request_session "carol") = Some carol.
Proof.
  apply (session_user_is_active_not_checked jwt_decode_none db_demo (request_session "carol")
           "carol" carol); [reflexivity|discriminate|reflexivity].
Defined.



(** A rejected callback (no state at all) redirects with status 307. *)
Lemma google_callback_status_is_not_302 :
  status_code (snd (google_callback jwt_encode_demo token_endpoint_down userinfo_down
                      None None "u-new" empty_session db_demo)) = 307%Z /\
  status_code (snd (google_callback jwt_encode_demo token_endpoint_down userinfo_down
                      None None "u-new" empty_session db_demo)) <> 302%Z.
Proof. split; vm_compute; [reflexivity|discriminate]. Qed.

Lemma google_callback_state_and_redirects_witness :
  s_oauth_state (fst (fst (google_callback jwt_encode_demo token_endpoint_down userinfo_down
                             (Some "st1") (Some "code") "u-new"
                             (mkSession None (Some "st1") None) db_demo))) = None.
Proof.
  apply (proj2 (proj2 (proj2 (proj2
           (google_callback_state_and_redirects jwt_encode_demo token_endpoint_down userinfo_down
              (Some "st1") (Some "code") "u-new" (mkSession None (Some "st1") None) db_demo)))));
    reflexivity.
Defined.

(* ================================================================== *)
(* Further properties of the code                                       *)
(* ================================================================== *)

(* ------------------------------------------------------------------ *)
(* Whitespace: strip, split, calculate_counts, validate_names           *)
(* ------------------------------------------------------------------ *)

Lemma length_string_of_list_ascii (l : list ascii) :
  String.length (string_of_list_ascii l) = List.length l.
Proof. induction l as [|c l IH]; simpl; [reflexivity|now rewrite IH]. Qed.

Lemma length_list_ascii_of_string (s : string) :
  List.length (list_ascii_of_string s) = String.length s.
Proof. induction s as [|c s IH]; simpl; [reflexivity|now rewrite IH]. Qed.

Lemma drop_space_length l : (List.length (drop_space l) <= List.length l)%nat.
Proof.
  induction l as [|c l IH]; simpl; [lia|].
  destruct (py_isspace c); simpl; lia.
Qed.

Lemma drop_space_idem l : drop_space (drop_space l) = drop_space l.
Proof.
  induction l as [|c l IH]; simpl; [reflexivity|].
  destruct (py_isspace c) eqn:Hc; [exact IH|simpl; now rewrite Hc].
Qed.

Lemma drop_space_head l :
  drop_space l = [] \/ exists c r, drop_space l = c :: r /\ py_isspace c = false.
Proof.
  induction l as [|c l IH]; simpl; [now left|].
  destruct (py_isspace c) eqn:Hc; [exact IH|right; now exists c, l].
Qed.

Lemma drop_space_keeps_last l x :
  py_isspace x = false -> exists l', drop_space (app l [x]) = app l' [x].
Proof.
  intros Hx. induction l as [|c l IH]; simpl.
  - rewrite Hx. now exists [].
  - destruct (py_isspace c); [exact IH|now exists (c :: l)].
Qed.

Lemma drop_space_existsb l :
  existsb nonspace (drop_space l) = existsb nonspace l.
Proof.
  induction l as [|c l IH]; simpl; [reflexivity|].
  unfold nonspace at 2. destruct (py_isspace c) eqn:Hc; simpl; [exact IH|].
  unfold nonspace. now rewrite Hc.
Qed.

Lemma existsb_rev {A} (f : A -> bool) l : existsb f (rev l) = existsb f l.
Proof.
  induction l as [|a l IH]; simpl; [reflexivity|].
  rewrite existsb_app, IH. simpl. now rewrite orb_false_r, orb_comm.
Qed.

Lemma py_strip_existsb s :
  existsb nonspace (list_ascii_of_string (py_strip s))
  = existsb nonspace (list_ascii_of_string s).
Proof.
  unfold py_strip. rewrite list_ascii_of_string_of_list_ascii.
  now rewrite existsb_rev, drop_space_existsb, existsb_rev, drop_space_existsb.
Qed.

Lemma py_strip_length s : (String.length (py_strip s) <= String.length s)%nat.
Proof.
  unfold py_strip. rewrite length_string_of_list_ascii, length_rev.
  rewrite <- length_list_ascii_of_string.
  pose proof (drop_space_length (rev (drop_space (list_ascii_of_string s)))) as H1.
  pose proof (drop_space_length (list_ascii_of_string s)) as H2.
  rewrite length_rev in H1. lia.
Qed.

Lemma py_strip_idem s : py_strip (py_strip s) = py_strip s.
Proof.
  unfold py_strip at 1 2. rewrite list_ascii_of_string_of_list_ascii.
  set (D := drop_space (list_ascii_of_string s)).
  set (M := drop_space (rev D)).
  assert (HM : drop_space M = M) by apply drop_space_idem.
  assert (HR : drop_space (rev M) = rev M).
  { destruct (drop_space_head (list_ascii_of_string s)) as [HD|[c [r [HD Hc]]]];
      fold D in HD.
    - subst M. rewrite HD. reflexivity.
    - subst M. rewrite HD. simpl.
      destruct (drop_space_keeps_last (rev r) c Hc) as [l' Hl']. rewrite Hl'.
      rewrite rev_app_distr. simpl. now rewrite Hc. }
  rewrite HR, rev_involutive, HM. reflexivity.
Qed.

Lemma py_split_ws_aux_length s cur :
  (List.length (py_split_ws_aux s cur)
   <= String.length s + (if String.eqb cur "" then 0 else 1))%nat.
Proof.
  revert cur. induction s as [|c s IH]; intros cur; simpl.
  - destruct (String.eqb cur ""); simpl; lia.
  - destruct (py_isspace c).
    + destruct (String.eqb cur "") eqn:Hc; simpl; specialize (IH ""); simpl in IH; lia.
    + specialize (IH (cur ++ String c "")).
      destruct (String.eqb (cur ++ String c "") "") eqn:E.
      * apply String.eqb_eq in E. destruct cur; discriminate.
      * destruct (String.eqb cur ""); lia.
Qed.

Lemma py_split_ws_aux_cur s cur : cur <> "" -> py_split_ws_aux s cur <> [].
Proof.
  revert cur. induction s as [|c s IH]; intros cur Hcur; simpl.
  - apply String.eqb_neq in Hcur. now rewrite Hcur.
  - destruct (py_isspace c).
    + apply String.eqb_neq in Hcur. now rewrite Hcur.
    + apply IH. destruct cur; discriminate.
Qed.

Lemma py_split_ws_aux_nonspace s cur :
  existsb nonspace (list_ascii_of_string s) = true -> py_split_ws_aux s cur <> [].
Proof.
  revert cur. induction s as [|c s IH]; intros cur H; simpl in *; [discriminate|].
  unfold nonspace in H at 1. destruct (py_isspace c) eqn:Hc; simpl in H.
  - destruct (String.eqb cur ""); [now apply IH|discriminate].
  - apply py_split_ws_aux_cur. destruct cur; discriminate.
Qed.

Lemma forallb_existsb_nonspace l :
  forallb py_isspace l = negb (existsb nonspace l).
Proof.
  induction l as [|c l IH]; simpl; [reflexivity|].
  rewrite IH. unfold nonspace. now destruct (py_isspace c).
Qed.

(** calculate_counts: the word count is 0 exactly when the content is
    whitespace only (in particular for empty content), and it never
    exceeds the character count. *)
Theorem calculate_counts_words :
  forall content,
    (fst (calculate_counts content) = 0%nat
       <-> forallb py_isspace (list_ascii_of_string content) = true) /\
    (fst (calculate_counts content) <= snd (calculate_counts content))%nat.
Proof.
  intros content. unfold calculate_counts. simpl.
  rewrite forallb_existsb_nonspace.
  pose proof (py_strip_existsb content) as Hs.
  pose proof (py_strip_length content) as Hl.
  destruct (existsb nonspace (list_ascii_of_string content)) eqn:He.
  - assert (Hne : String.eqb (py_strip content) "" = false).
    { apply String.eqb_neq. intros E. rewrite E in Hs. discriminate. }
    rewrite Hne. simpl.
    pose proof (py_split_ws_aux_nonspace (py_strip content) "" Hs) as Hw.
    pose proof (py_split_ws_aux_length (py_strip content) "") as Hlen.
    simpl in Hlen. unfold py_split_ws.
    split; [|lia].
    split; [intros H0|discriminate].
    destruct (py_split_ws_aux (py_strip content) ""); [contradiction|discriminate].
  - destruct (String.eqb (py_strip content) "") eqn:E.
    + simpl. split; [tauto|lia].
    + exfalso. apply String.eqb_neq in E.
      destruct (drop_space_head (list_ascii_of_string content)) as [HD|[c [r [HD Hc]]]].
      * apply E. unfold py_strip. now rewrite HD.
      * pose proof (drop_space_existsb (list_ascii_of_string content)) as HX.
        rewrite HD, He in HX. simpl in HX. unfold nonspace in HX. now rewrite Hc in HX.
Qed.

(** validate_names is idempotent: a name it accepts (stripped) is
    accepted again unchanged. *)
Theorem validate_names_idempotent :
  forall v w, validate_names v = Done w -> validate_names w = Done w.
Proof.
  intros v w H. unfold validate_names in *.
  destruct (String.eqb v "" || (String.length (py_strip v) <? 1)%nat) eqn:E1; [discriminate|].
  destruct (50 <? String.length (py_strip v))%nat eqn:E2; [discriminate|].
  injection H as <-. rewrite py_strip_idem.
  apply orb_false_iff in E1 as [_ E1]. rewrite E1, E2.
  assert (Hne : String.eqb (py_strip v) "" = false).
  { apply String.eqb_neq. intros E. rewrite E in E1. discriminate. }
  now rewrite Hne.
Qed.

(* ------------------------------------------------------------------ *)
(* Accounts: registration, password change, Google merge, sessions      *)
(* ------------------------------------------------------------------ *)

Lemma find_map_preserved {A} (f : A -> bool) (g : A -> A) (l : list A) :
  (forall x, f (g x) = f x) -> find f (map g l) = option_map g (find f l).
Proof.
  intros Hg. induction l as [|a l IH]; simpl; [reflexivity|].
  rewrite Hg. destruct (f a); [reflexivity|exact IH].
Qed.

(** Registration then login: a user registered with a fresh email and
    fresh id can log in with the same email and password, and a second
    registration with that email is refused with 400.  Hypotheses:
    bcrypt's hash is non-empty and accepts the password it hashed. *)
Theorem register_then_login :
  forall cat vp new_id hashed user_data session db,
    (forall u, In u (users db) -> u_email u <> ur_email user_data) ->
    (forall u, In u (users db) -> u_id u <> new_id) ->
    hashed <> "" ->
    vp (ur_password user_data) hashed = Some true ->
    let '((s1, db1), out) := register_user cat new_id hashed user_data session db in
    (exists r, out = Ok r /\ lr_user_id r = new_id) /\
    (exists s2 r2, login_user vp cat (ur_email user_data) (ur_password user_data) s1 db1
                     = (s2, Ok r2) /\ lr_user_id r2 = new_id) /\
    (forall new_id2 hashed2 user_data2,
       ur_email user_data2 = ur_email user_data ->
       snd (register_user cat new_id2 hashed2 user_data2 s1 db1)
         = Raise 400 "User with this email already exists").
Proof.
  intros cat vp new_id hashed ud session db Hemail Hid Hne Hpw.
  unfold register_user, create_user_from_email.
  rewrite find_all_false
    by (intros u Hu; apply String.eqb_neq; exact (Hemail u Hu)).
  rewrite existsb_all_false
    by (intros u Hu; apply String.eqb_neq; exact (Hid u Hu)).
  set (new_user := mkUser new_id (ur_email ud) (Some hashed) None (ur_first_name ud)
                     (ur_last_name ud) "local" true false).
  split; [eexists; split; reflexivity|]. split.
  - unfold login_user, authenticate_user. simpl.
    rewrite find_app_last with (x := new_user).
    + simpl. apply String.eqb_neq in Hne. rewrite Hne. simpl. rewrite Hpw. simpl.
      do 2 eexists. split; reflexivity.
    + intros u Hu. do 2 apply andb_false_intro1. apply String.eqb_neq. exact (Hemail u Hu).
    + simpl. now rewrite String.eqb_refl.
  - intros new_id2 hashed2 ud2 He2. simpl.
    rewrite find_app_last with (x := new_user).
    + reflexivity.
    + intros u Hu. apply String.eqb_neq. rewrite He2. exact (Hemail u Hu).
    + simpl. rewrite He2. apply String.eqb_refl.
Qed.

(** Password change then login: after a successful change, the caller
    logs in with the new password, and the current password no longer
    works (when bcrypt rejects it against the new hash).  Hypotheses:
    the caller is the active row holding its email. *)
Theorem change_password_then_login :
  forall vp cat new_hashed data cu db db1 msg session,
    change_password vp new_hashed data cu db = (db1, Ok msg) ->
    In cu (users db) -> u_is_active cu = true ->
    (forall u, In u (users db) -> u_email u = u_email cu -> u = cu) ->
    new_hashed <> "" ->
    vp (pc_new_password data) new_hashed = Some true ->
    (exists s r, login_user vp cat (u_email cu) (pc_new_password data) session db1 = (s, Ok r)
                 /\ lr_user_id r = u_id cu) /\
    (vp (pc_current_password data) new_hashed = Some false ->
     login_user vp cat (u_email cu) (pc_current_password data) session db1
       = (session, Raise 401 "Invalid email or password")).
Proof.
  intros vp cat nh data cu db db1 msg session Hch Hin Hact Huniq Hne Hnew.
  unfold change_password in Hch.
  destruct (String.eqb (u_auth_provider cu) "local") eqn:Hloc; [|discriminate].
  destruct (truthy (u_password_hash cu)) eqn:Ht; [|discriminate]. simpl in Hch.
  destruct (vp (pc_current_password data) (get_or (u_password_hash cu) "")) as [[|]|];
    [|discriminate|discriminate].
  injection Hch as <- _.
  set (g := fun u => if String.eqb (u_id u) (u_id cu)
                     then mkUser (u_id u) (u_email u) (Some nh) (u_google_id u) (u_first_name u)
                            (u_last_name u) (u_auth_provider u) (u_is_active u) (u_is_admin u)
                     else u).
  set (f := fun u => String.eqb (u_email u) (u_email cu) && String.eqb (u_auth_provider u) "local"
                     && Bool.eqb (u_is_active u) true).
  assert (Hf : find f (map g (users db)) = Some (g cu)).
  { rewrite find_map_preserved.
    - rewrite (find_unique_sat f (users db) cu Hin).
      + reflexivity.
      + unfold f. now rewrite String.eqb_refl, Hloc, Hact.
      + intros y Hy Hfy. apply Huniq; [exact Hy|].
        unfold f in Hfy. apply andb_prop in Hfy as [Hfy _]. apply andb_prop in Hfy as [Hfy _].
        now apply String.eqb_eq.
    - intros x. unfold f, g. destruct (String.eqb (u_id x) (u_id cu)); reflexivity. }
  assert (Hg : g cu = mkUser (u_id cu) (u_email cu) (Some nh) (u_google_id cu) (u_first_name cu)
                        (u_last_name cu) (u_auth_provider cu) (u_is_active cu) (u_is_admin cu)).
  { unfold g. now rewrite String.eqb_refl. }
  unfold login_user, authenticate_user. simpl. fold f. rewrite Hf, Hg. simpl.
  apply String.eqb_neq in Hne. rewrite Hne. simpl.
  split.
  - rewrite Hnew. simpl. do 2 eexists. split; reflexivity.
  - intros Hold. now rewrite Hold.
Qed.

(** Google sign-in with the profile of the v2 userinfo endpoint that the
    callback calls, which has no `sub`: the lookup becomes `google_id IS
    NULL OR email = e`, so when some row matches, the caller is signed in
    as a matching row, which may be another user's account with no
    Google id.  That row keeps its id, email, admin flag and password
    hash, keeps a NULL Google id and gets provider "google"; from then on
    password login for its email answers 401 and password change 400.
    Hypothesis: emails are unique (UNIQUE column). *)
Theorem google_login_without_sub_converts_matching_row :
  forall vp cat new_id info db session password data new_hashed,
    gi_sub info = None ->
    (forall u v, In u (users db) -> In v (users db) -> u_email u = u_email v -> u = v) ->
    (exists v, In v (users db) /\ (u_google_id v = None \/ gi_email info = Some (u_email v))) ->
    exists db1 u w,
      create_or_update_user_from_google new_id info (session, db) = ((session, db1), Done u) /\
      In w (users db) /\ (u_google_id w = None \/ gi_email info = Some (u_email w)) /\
      u_id u = u_id w /\ u_email u = u_email w /\ u_is_admin u = u_is_admin w /\
      u_password_hash u = u_password_hash w /\ u_google_id u = None /\
      u_auth_provider u = "google" /\
      login_user vp cat (u_email w) password session db1
        = (session, Raise 401 "Invalid email or password") /\
      change_password vp new_hashed data u db1
        = (db1, Raise 400 "Password change not available for OAuth users").
Proof.
  intros vp cat new_id info db session password data nh Hsub Hue [v [Hv Hmatch]].
  unfold create_or_update_user_from_google. rewrite Hsub.
  set (f := fun u => sql_eq_opt (u_google_id u) None || sql_eq_opt (Some (u_email u)) (gi_email info)).
  assert (Hsat : forall x, f x = true <-> u_google_id x = None \/ gi_email info = Some (u_email x)).
  { intros x. unfold f. rewrite orb_true_iff.
    destruct (u_google_id x); simpl; destruct (gi_email info) as [e|]; simpl;
      rewrite ?String.eqb_eq; split; intros H; intuition congruence. }
  destruct (find f (users db)) as [w|] eqn:Hf.
  2:{ exfalso. pose proof (find_none f (users db) Hf v Hv) as Hfv.
      rewrite <- not_true_iff_false in Hfv. apply Hfv, Hsat, Hmatch. }
  apply find_some in Hf as [Hw Hfw]. apply Hsat in Hfw.
  rewrite existsb_all_false by (intros x _; cbn [truthy]; now rewrite andb_false_r, andb_false_l).
  do 3 eexists. split; [reflexivity|]. split; [exact Hw|]. split; [exact Hfw|]. cbn.
  repeat split.
  unfold login_user, authenticate_user. simpl.
  rewrite find_all_false; [reflexivity|].
  intros x Hx. apply in_map_iff in Hx as [y [<- Hy]].
  destruct (String.eqb_spec (u_id y) (u_id w)) as [E|E]; simpl.
  - rewrite andb_false_r. reflexivity.
  - destruct (String.eqb_spec (u_email y) (u_email w)) as [E'|]; [|reflexivity].
    exfalso. apply E. now rewrite (Hue y w Hy Hw E').
Qed.

(** Login binds the session: after a successful login, a request
    carrying the returned session resolves to the logged-in user, whose
    id is the one in the response.  Hypotheses: user ids are unique and
    non-empty (uuids). *)
Theorem login_binds_session :
  forall vp cat vt email password session db s1 r authorization x_api_token,
    login_user vp cat email password session db = (s1, Ok r) ->
    (forall u v, In u (users db) -> In v (users db) -> u_id u = u_id v -> u = v) ->
    (forall u, In u (users db) -> u_id u <> "") ->
    exists u, get_current_user vt db (mkRequest s1 authorization x_api_token) = Some u /\
              u_id u = lr_user_id r /\ u_email u = email /\ s_access_token s1 = Some (lr_token r).
Proof.
  intros vp cat vt email password session db s1 r auth xapi Hl Huniq Hne.
  unfold login_user in Hl.
  destruct (authenticate_user vp email password db) as [[user|]|] eqn:Ha;
    [|discriminate|discriminate].
  injection Hl as <- <-.
  unfold authenticate_user in Ha.
  destruct (find _ (users db)) as [v|] eqn:Hf; [|discriminate].
  apply find_some in Hf as [Hv Hfv].
  assert (v = user) as <-.
  { destruct (truthy (u_password_hash v)); [|discriminate].
    destruct (vp password (get_or (u_password_hash v) "")) as [[|]|]; simpl in Ha; congruence. }
  exists v. unfold get_current_user, truthy. simpl.
  pose proof (Hne v Hv) as Hnv. apply String.eqb_neq in Hnv. rewrite Hnv. simpl.
  unfold query_user_by_id.
  rewrite (find_unique_sat _ (users db) v Hv).
  - apply andb_prop in Hfv as [Hfv _]. apply andb_prop in Hfv as [Hfv _].
    apply String.eqb_eq in Hfv. repeat split; auto.
  - apply String.eqb_refl.
  - intros y Hy Hfy. apply String.eqb_eq in Hfy. exact (Huniq y v Hy Hv Hfy).
Qed.

Lemma google_callback_fst cat pte gui state code new_id session db :
  fst (google_callback cat pte gui state code new_id session db)
  = fst (google_callback_body cat pte gui state code new_id (session, db)).
Proof.
  unfold google_callback. destruct (google_callback_body _ _ _ _ _ _ _) as [st' []]; reflexivity.
Qed.

(** OAuth start then callback: GET /api/auth/google stores the state it
    sends; a callback presenting any other state is rejected without
    touching session or database, and once a callback has presented the
    stored state, replaying that state is rejected. *)
Theorem google_auth_state_single_use :
  forall urlencode client_id redirect_uri st session cat pte gui code new_id db,
    truthy client_id = true -> st <> "" ->
    let s1 := fst (google_auth urlencode client_id redirect_uri st session) in
    s_oauth_state s1 = Some st /\
    (forall other, other <> Some st ->
       google_callback cat pte gui other code new_id s1 db
         = ((s1, db), RedirectResponse "/?auth=error")) /\
    (forall code' new_id',
       let st2 := fst (google_callback cat pte gui (Some st) code new_id s1 db) in
       google_callback cat pte gui (Some st) code' new_id' (fst st2) (snd st2)
         = ((fst st2, snd st2), RedirectResponse "/?auth=error")).
Proof.
  intros urlencode cid redirect_uri st session cat pte gui code new_id db Hcid Hst.
  unfold google_auth. rewrite Hcid. simpl.
  set (s1 := mkSession (s_user_id session) (Some st) (s_access_token session)).
  assert (Htr : truthy (Some st) = true).
  { unfold truthy. apply String.eqb_neq in Hst. now rewrite Hst. }
  split; [reflexivity|]. split.
  - intros other Ho. unfold google_callback.
    rewrite google_callback_body_rejects; [reflexivity|].
    intros [_ E]. exact (Ho E).
  - intros code' new_id'.
    pose proof (google_callback_body_accepts cat pte gui (Some st) code new_id s1 db Htr eq_refl)
      as [Hs _].
    rewrite google_callback_fst.
    destruct (google_callback_body cat pte gui (Some st) code new_id (s1, db)) as [[s2 db2] r].
    simpl in Hs |- *. unfold google_callback.
    rewrite google_callback_body_rejects; [reflexivity|].
    rewrite Hs. intros [_ H]. discriminate.
Qed.


(* ------------------------------------------------------------------ *)
(* Tokens, prompts, statistics, MCP endpoints, logout, users table     *)
(* ------------------------------------------------------------------ *)

Lemma NoDup_map_key {A} (key : A -> string) (l : list A) (x y : A) :
  NoDup (map key l) -> In x l -> In y l -> key x = key y -> x = y.
Proof.
  induction l as [|a l IH]; simpl; intros Hn Hx Hy Hk; [destruct Hx|].
  inversion Hn as [|? ? Hnot Hn']; subst.
  destruct Hx as [<-|Hx]; destruct Hy as [<-|Hy]; auto.
  - exfalso. apply Hnot. rewrite Hk. now apply in_map.
  - exfalso. apply Hnot. rewrite <- Hk. now apply in_map.
Qed.

Lemma map_replace_preserves {A B} (key : A -> string) (P : A -> B) (l : list A) (t t' : A)
    (k : string) :
  NoDup (map key l) -> In t l -> key t = k -> P t' = P t ->
  map P (map (fun x => if String.eqb (key x) k then t' else x) l) = map P l.
Proof.
  intros Hn Ht Hk HP. rewrite map_map. apply map_ext_in. intros x Hx.
  destruct (String.eqb_spec (key x) k) as [E|E]; [|reflexivity].
  rewrite (NoDup_map_key key l x t Hn Hx Ht (eq_trans E (eq_sym Hk))). exact HP.
Qed.

Lemma map_replace_other {A} (key : A -> string) (l : list A) (t t' x : A) (k : string) :
  NoDup (map key l) -> In t l -> key t = k -> In x l -> x <> t ->
  In x (map (fun y => if String.eqb (key y) k then t' else y) l).
Proof.
  intros Hn Ht Hk Hx Hne. apply in_map_iff. exists x. split; [|exact Hx].
  destruct (String.eqb_spec (key x) k) as [E|E]; [|reflexivity].
  exfalso. apply Hne. exact (NoDup_map_key key l x t Hn Hx Ht (eq_trans E (eq_sym Hk))).
Qed.

Lemma map_replace_in {A} (key : A -> string) (l : list A) (t t' : A) (k : string) :
  In t l -> key t = k ->
  In t' (map (fun y => if String.eqb (key y) k then t' else y) l).
Proof.
  intros Ht Hk. apply in_map_iff. exists t. split; [|exact Ht].
  rewrite Hk, String.eqb_refl. reflexivity.
Qed.

Lemma total_usage_replace (l : list Token) (t t' : Token) :
  NoDup (map tok_id l) -> In t l -> tok_id t' = tok_id t ->
  total_usage (map (fun x => if String.eqb (tok_id x) (tok_id t') then t' else x) l)
  = (total_usage l - tok_usage_count t + tok_usage_count t')%Z.
Proof.
  unfold total_usage.
  induction l as [|a l IH]; intros Hn Ht Hk; [destruct Ht|].
  simpl in Hn. inversion Hn as [|? ? Hnot Hn']; subst.
  simpl. destruct (String.eqb_spec (tok_id a) (tok_id t')) as [E|E].
  - assert (a = t) as <-.
    { destruct Ht as [<-|Ht]; [reflexivity|]. exfalso. apply Hnot. rewrite E, Hk. now apply in_map. }
    assert (Hid : map (fun x => if String.eqb (tok_id x) (tok_id t') then t' else x) l = l).
    { transitivity (map (fun x => x) l); [|apply map_id]. apply map_ext_in. intros y Hy.
      destruct (String.eqb_spec (tok_id y) (tok_id t')) as [E'|]; [|reflexivity].
      exfalso. apply Hnot. rewrite E, <- E'. now apply in_map. }
    rewrite Hid. lia.
  - destruct Ht as [<-|Ht]; [congruence|]. rewrite IH by assumption. lia.
Qed.

(** verify_api_token only does usage bookkeeping: users, prompts and every
    token's id, hash, owner, active flag, permissions and expiry are kept;
    when it resolves a user, the table's total usage count grows by exactly
    one and an active token with the presented hash, stamped with the
    current time, belongs to that user.  Hypothesis: token ids are unique
    (primary key). *)
Theorem verify_api_token_bookkeeping :
  forall hash_token now token db,
    NoDup (map tok_id (tokens db)) ->
    let (db', r) := verify_api_token hash_token now token db in
    users db' = users db /\ prompts db' = prompts db /\
    map (fun t => (tok_id t, tok_token_hash t, tok_user_id t, tok_is_active t,
                   tok_permissions t, tok_expires_at t)) (tokens db')
    = map (fun t => (tok_id t, tok_token_hash t, tok_user_id t, tok_is_active t,
                     tok_permissions t, tok_expires_at t)) (tokens db) /\
    (forall u, r = Some u ->
       total_usage (tokens db') = (total_usage (tokens db) + 1)%Z /\
       exists t, In t (tokens db') /\ tok_token_hash t = hash_token token /\
                 tok_is_active t = true /\ tok_last_used_at t = Some now /\
                 tok_user_id t = u_id u).
Proof.
  intros ht now token db Hn. unfold verify_api_token.
  destruct (String.eqb token "").
  { split; [reflexivity|split; [reflexivity|split; [reflexivity|intros u Hu; discriminate]]]. }
  destruct (find _ (tokens db)) as [t|] eqn:Hf.
  2:{ split; [reflexivity|split; [reflexivity|split; [reflexivity|intros u Hu; discriminate]]]. }
  apply find_some in Hf as [Ht Hft]. apply andb_prop in Hft as [Hh Ha].
  apply String.eqb_eq in Hh. apply Bool.eqb_prop in Ha.
  set (t' := mkToken (tok_id t) (tok_name t) (tok_description t) (tok_token_hash t) (tok_user_id t)
                     (tok_is_active t) (Some now) (tok_usage_count t + 1) (tok_permissions t)
                     (tok_expires_at t)).
  unfold commit_token, set_tokens. cbn [users prompts tokens].
  split; [reflexivity|]. split; [reflexivity|]. split.
  - apply map_replace_preserves with (t := t); [exact Hn|exact Ht|reflexivity|reflexivity].
  - intros u Hu. split.
    + rewrite (total_usage_replace _ t) by (first [exact Hn|exact Ht|reflexivity]). simpl. lia.
    + exists t'. split; [apply map_replace_in with (t := t); [exact Ht|reflexivity]|].
      unfold query_user_by_id in Hu. cbn [users] in Hu.
      apply find_some in Hu as [_ Hu]. apply String.eqb_eq in Hu.
      simpl. repeat split; auto.
Qed.

Lemma users_verify_api_token hash_token now token db :
  users (fst (verify_api_token hash_token now token db)) = users db.
Proof.
  unfold verify_api_token.
  destruct (String.eqb token ""); [reflexivity|].
  destruct (find _ _); reflexivity.
Qed.

Lemma users_resolver hash_token verify_token now db request :
  users (fst (get_current_user_or_token hash_token verify_token now db request)) = users db.
Proof.
  unfold get_current_user_or_token.
  destruct (get_current_user verify_token db request); [reflexivity|].
  destruct (negb _); [apply users_verify_api_token|reflexivity].
Qed.

(** PUT /api/tokens/{id} never changes a token's id, hash, owner, usage
    data or expiry, nor users or prompts, and leaves other users' tokens in
    the table.  Hypothesis: token ids are unique (primary key). *)
Theorem update_token_preserves_credentials :
  forall token_id body cu db,
    NoDup (map tok_id (tokens db)) ->
    let db' := fst (update_token token_id body cu db) in
    users db' = users db /\ prompts db' = prompts db /\
    map (fun t => (tok_id t, tok_token_hash t, tok_user_id t, tok_last_used_at t,
                   tok_usage_count t, tok_expires_at t)) (tokens db')
    = map (fun t => (tok_id t, tok_token_hash t, tok_user_id t, tok_last_used_at t,
                     tok_usage_count t, tok_expires_at t)) (tokens db) /\
    (forall t, In t (tokens db) -> tok_user_id t <> u_id cu -> In t (tokens db')).
Proof.
  intros tid body cu db Hn. unfold update_token. cbv zeta.
  destruct (query_owned_token db tid cu) as [t|] eqn:Hq.
  2:{ cbn [fst]. split; [reflexivity|split; [reflexivity|split; [reflexivity|auto]]]. }
  unfold query_owned_token in Hq. apply find_some in Hq as [Ht Hq].
  apply andb_prop in Hq as [_ Hown]. rewrite Hown. cbn [negb].
  destruct body as [data|].
  2:{ cbn [fst]. split; [reflexivity|split; [reflexivity|split; [reflexivity|auto]]]. }
  cbn [fst]. unfold commit_token, set_tokens. cbn [users prompts tokens].
  split; [reflexivity|]. split; [reflexivity|]. split.
  - apply map_replace_preserves with (t := t); [exact Hn|exact Ht|reflexivity|reflexivity].
  - intros x Hx Hne. apply map_replace_other with (t := t); [exact Hn|exact Ht|reflexivity|exact Hx|].
    intros ->. apply Hne. now apply String.eqb_eq.
Qed.

(** DELETE /api/tokens/{id} either raises and changes nothing, or removes
    exactly one token, the caller's token with that id.  Hypothesis: token
    ids are unique (primary key). *)
Theorem delete_token_exact :
  forall token_id cu db db' r,
    delete_token token_id cu db = (db', r) ->
    NoDup (map tok_id (tokens db)) ->
    users db' = users db /\ prompts db' = prompts db /\
    ((db' = db /\ exists code detail, r = Raise code detail) \/
     exists t, In t (tokens db) /\ tok_id t = token_id /\ tok_user_id t = u_id cu /\
       (forall x, In x (tokens db') <-> In x (tokens db) /\ x <> t)).
Proof.
  intros tid cu db db' r Hd Hn. unfold delete_token in Hd.
  destruct (query_owned_token db tid cu) as [t|] eqn:Hq.
  2:{ injection Hd as <- <-. split; [reflexivity|split; [reflexivity|]].
      left. split; [reflexivity|eauto]. }
  unfold query_owned_token in Hq. apply find_some in Hq as [Ht Hq].
  apply andb_prop in Hq as [Hid Hown]. rewrite Hown in Hd. cbn [negb] in Hd.
  injection Hd as <- <-. unfold delete_token_row, set_tokens. cbn [users prompts tokens].
  split; [reflexivity|split; [reflexivity|]]. right. exists t.
  apply String.eqb_eq in Hid. apply String.eqb_eq in Hown.
  split; [exact Ht|split; [exact Hid|split; [exact Hown|]]].
  intros x. rewrite filter_In. split.
  - intros [Hx Hne]. split; [exact Hx|]. intros ->. now rewrite String.eqb_refl in Hne.
  - intros [Hx Hne]. split; [exact Hx|].
    destruct (String.eqb_spec (tok_id x) (tok_id t)) as [E|E]; [|reflexivity].
    exfalso. exact (Hne (NoDup_map_key tok_id _ x t Hn Hx Ht E)).
Qed.

Lemma get_tokens_listing cu db :
  get_tokens cu db
  = Ok (mkTokenList (map token_view (filter (fun t => String.eqb (tok_user_id t) (u_id cu)) (tokens db)))
          (u_id cu) (List.length (filter (fun t => String.eqb (tok_user_id t) (u_id cu)) (tokens db)))).
Proof.
  unfold get_tokens. rewrite existsb_all_false; [reflexivity|].
  intros t Ht. apply filter_In in Ht as [_ Ht]. now rewrite Ht.
Qed.

(** GET /api/tokens always answers (its 500 "Security error detected" branch
    is unreachable), its count is the length of its list, and it lists
    exactly the caller's tokens. *)
Theorem get_tokens_only_own :
  forall cu db, exists l,
    get_tokens cu db = Ok l /\ tl_user_id l = u_id cu /\
    tl_count l = List.length (tl_tokens l) /\
    (forall v, In v (tl_tokens l) <->
       exists t, In t (tokens db) /\ tok_user_id t = u_id cu /\ token_view t = v).
Proof.
  intros cu db. rewrite get_tokens_listing. eexists. split; [reflexivity|]. cbn.
  split; [reflexivity|]. split; [now rewrite length_map|].
  intros v. rewrite in_map_iff. split.
  - intros [t [<- Ht]]. apply filter_In in Ht as [Ht Ho]. apply String.eqb_eq in Ho. eauto.
  - intros [t [Ht [Ho <-]]]. exists t. split; [reflexivity|]. apply filter_In.
    split; [exact Ht|now apply String.eqb_eq].
Qed.

(** After POST /api/tokens succeeds, GET /api/tokens lists the tokens it
    listed before and one more, in an order the query does not fix: the
    new token, with the new id, owned by the caller, active and never
    used. *)
Theorem create_token_then_get_tokens :
  forall hash_token raw_token new_id body cu db db1 created,
    create_token hash_token raw_token new_id body cu db = (db1, Ok created) ->
    exists before after v,
      get_tokens cu db = Ok before /\ get_tokens cu db1 = Ok after /\
      tl_count after = S (tl_count before) /\
      Permutation (tl_tokens after) (v :: tl_tokens before) /\
      tv_id v = new_id /\ tc_id created = new_id /\ tv_owner_user_id v = u_id cu /\
      tv_is_active v = true /\ tv_usage_count v = 0%Z /\ tv_last_used_at v = None.
Proof.
  intros ht raw new_id body cu db db1 created Hc. unfold create_token in Hc.
  destruct body as [data|]; [|discriminate].
  destruct (existsb _ (tokens db)); [discriminate|].
  injection Hc as <- <-.
  rewrite !get_tokens_listing. unfold set_tokens. cbn [tokens].
  rewrite filter_app. cbn [filter]. rewrite String.eqb_refl.
  do 3 eexists. split; [reflexivity|]. split; [reflexivity|]. cbn.
  rewrite length_app, map_app. cbn. split; [lia|]. split; [apply Permutation_sym, Permutation_cons_append|].
  repeat split.
Qed.

(** PUT /api/prompts/{id} never changes the users table, the ids or the
    owners of prompts, and keeps every other prompt.  Hypothesis: prompt
    ids are unique (primary key). *)
Theorem update_prompt_preserves_owners :
  forall hash_token verify_token now prompt_id body request db,
    NoDup (map p_id (prompts db)) ->
    let db' := fst (update_prompt hash_token verify_token now prompt_id body request db) in
    users db' = users db /\
    map (fun p => (p_id p, p_user_id p)) (prompts db') = map (fun p => (p_id p, p_user_id p)) (prompts db) /\
    (forall p, In p (prompts db) -> p_id p <> prompt_id -> In p (prompts db')).
Proof.
  intros ht vt now pid body request db Hn.
  pose proof (prompts_resolver ht vt now db request) as Hp.
  pose proof (users_resolver ht vt now db request) as Hu.
  unfold update_prompt. cbv zeta.
  destruct (get_current_user_or_token ht vt now db request) as [db1 [cu|]]; cbn [fst] in Hp, Hu.
  2:{ cbn [fst]. rewrite Hp, Hu. auto. }
  destruct (query_prompt_by_id db1 pid) as [p|] eqn:Hq.
  2:{ cbn [fst]. rewrite Hp, Hu. auto. }
  unfold query_prompt_by_id in Hq. apply find_some in Hq as [Hin Hid].
  apply String.eqb_eq in Hid. rewrite Hp in Hin.
  destruct (negb _ && negb _); [cbn [fst]; rewrite Hp, Hu; auto|].
  destruct body as [data|]; [|cbn [fst]; rewrite Hp, Hu; auto].
  cbn [fst]. unfold commit_prompt, set_prompts. cbn [users prompts]. rewrite Hp.
  split; [exact Hu|]. split.
  - apply map_replace_preserves with (t := p); [exact Hn|exact Hin|reflexivity|reflexivity].
  - intros x Hx Hne. apply map_replace_other with (t := p); [exact Hn|exact Hin|reflexivity|exact Hx|].
    intros ->. exact (Hne Hid).
Qed.

Lemma length_filter_split {A} (f g : A -> bool) (l : list A) :
  List.length (filter f l)
  = (List.length (filter (fun x => f x && g x) l)
     + List.length (filter (fun x => f x && negb (g x)) l))%nat.
Proof. induction l as [|a l IH]; simpl; [reflexivity|]. destruct (f a), (g a); simpl; lia. Qed.

(** GET /api/user/stats: public counts the caller's public prompts, private
    the caller's non-public prompts (never negative), total is their sum,
    and the display name is empty only when the email is. *)
Theorem get_user_stats_counts :
  forall hash_token verify_token now request db db1 st,
    get_user_stats hash_token verify_token now request db = (db1, Ok st) ->
    us_public st
      = List.length (filter (fun p => String.eqb (p_user_id p) (us_id st) && p_is_public p)
                      (prompts db)) /\
    us_private st
      = Z.of_nat (List.length (filter (fun p => String.eqb (p_user_id p) (us_id st)
                                                && negb (p_is_public p)) (prompts db))) /\
    us_total st = (us_public st + Z.to_nat (us_private st))%nat /\
    (us_name st = "" -> us_email st = "").
Proof.
  intros ht vt now request db db1 st H.
  pose proof (prompts_resolver ht vt now db request) as Hp.
  unfold get_user_stats in H. cbv zeta in H.
  destruct (get_current_user_or_token ht vt now db request) as [db2 [cu|]];
    cbn [fst] in Hp; [|discriminate].
  injection H as <- <-. cbn [us_id us_private us_public us_total us_name us_email]. rewrite Hp.
  assert (Hpub : filter (fun p => String.eqb (p_user_id p) (u_id cu) && Bool.eqb (p_is_public p) true)
                   (prompts db)
                 = filter (fun p => String.eqb (p_user_id p) (u_id cu) && p_is_public p) (prompts db)).
  { apply filter_ext. intros p. now destruct (p_is_public p). }
  rewrite Hpub.
  rewrite (length_filter_split (fun p => String.eqb (p_user_id p) (u_id cu)) p_is_public).
  split; [reflexivity|]. split; [lia|]. split; [lia|].
  match goal with |- context [String.eqb ?x ""] => destruct (String.eqb_spec x "") as [E|E] end;
    [auto|intros E'; contradiction].
Qed.

(** GET /api/mcp/prompts returns at most 50 prompts, each public or owned
    by the resolved caller, and all of them when there are at most 50. *)
Theorem mcp_get_prompts_bounded :
  forall hash_token verify_token now request db db1 views,
    mcp_get_prompts hash_token verify_token now request db = (db1, Ok views) ->
    exists cu,
      snd (get_current_user_or_token hash_token verify_token now db request) = Some cu /\
      (List.length views <= 50)%nat /\
      (forall v, In v views -> exists p, In p (prompts db) /\
          (p_is_public p = true \/ p_user_id p = u_id cu) /\
          v = mkMcpPromptView (p_title p) (get_or (p_description p) "")) /\
      ((List.length (filter (mcp_accessible cu) (prompts db)) <= 50)%nat ->
       views = map (fun p => mkMcpPromptView (p_title p) (get_or (p_description p) ""))
                   (filter (mcp_accessible cu) (prompts db))).
Proof.
  intros ht vt now request db db1 views H.
  pose proof (prompts_resolver ht vt now db request) as Hp.
  unfold mcp_get_prompts in H.
  destruct (get_current_user_or_token ht vt now db request) as [db2 [cu|]];
    cbn [fst] in Hp; [|discriminate].
  revert H. set (ps := firstn 50 _). intros H.
  injection H as <- <-. subst ps. rewrite Hp. exists cu. split; [reflexivity|]. split.
  - rewrite length_map. apply firstn_le_length.
  - split.
    + intros v Hv. apply in_map_iff in Hv as [p [<- Hin]].
      assert (Hin' : In p (filter (mcp_accessible cu) (prompts db))).
      { rewrite <- (firstn_skipn 50 (filter (mcp_accessible cu) (prompts db))).
        apply in_or_app. now left. }
      apply filter_In in Hin' as [Hin' Ha]. exists p. split; [exact Hin'|split; [|reflexivity]].
      unfold mcp_accessible in Ha. apply orb_prop in Ha as [Ha|Ha].
      * left. now destruct (p_is_public p).
      * right. now apply String.eqb_eq.
    + intros Hle. now rewrite firstn_all2.
Qed.

(** POST /api/mcp/prompts/{name} only ever returns the content of a
    prompt whose title matches and that is public or owned by the resolved
    caller, with the arguments substituted in order. *)
Theorem mcp_get_prompt_accessible_only :
  forall ilike hash_token verify_token now prompt_name arguments request db db1 text,
    mcp_get_prompt ilike hash_token verify_token now prompt_name arguments request db
      = (db1, Ok text) ->
    exists cu p args,
      snd (get_current_user_or_token hash_token verify_token now db request) = Some cu /\
      In p (prompts db) /\ (p_is_public p = true \/ p_user_id p = u_id cu) /\
      ilike (p_title p) ("%" ++ prompt_name ++ "%") = true /\
      arguments = Some args /\
      text = fold_left (fun content kv => py_replace ("{" ++ fst kv ++ "}") (snd kv) content)
               args (p_content p).
Proof.
  intros ilike ht vt now name arguments request db db1 text H.
  pose proof (prompts_resolver ht vt now db request) as Hp.
  unfold mcp_get_prompt in H.
  destruct (get_current_user_or_token ht vt now db request) as [db2 [cu|]];
    cbn [fst] in Hp; [|discriminate].
  destruct (find _ (prompts db2)) as [p|] eqn:Hf; [|discriminate].
  destruct arguments as [args|]; [|discriminate].
  injection H as <- <-. apply find_some in Hf as [Hin Hf]. rewrite Hp in Hin.
  apply andb_prop in Hf as [Hil Ha].
  exists cu, p, args. split; [reflexivity|]. split; [exact Hin|]. split.
  - unfold mcp_accessible in Ha. apply orb_prop in Ha as [Ha|Ha].
    + left. now destruct (p_is_public p).
    + right. now apply String.eqb_eq.
  - split; [exact Hil|split; reflexivity].
Qed.

Lemma prefix_app_self (p s : string) : String.prefix p (p ++ s) = true.
Proof.
  induction p as [|c p IH]; simpl; [destruct s; reflexivity|].
  destruct (ascii_dec c c); [exact IH|congruence].
Qed.

Lemma length_string_app (p s : string) :
  String.length (p ++ s) = (String.length p + String.length s)%nat.
Proof. induction p as [|c p IH]; simpl; [reflexivity|now rewrite IH]. Qed.

Lemma substring_app_length (p s : string) :
  substring (String.length p) (String.length s) (p ++ s) = s.
Proof.
  induction p as [|c p IH]; simpl; [|exact IH].
  induction s as [|c s IHs]; simpl; [reflexivity|]. now rewrite IHs.
Qed.

Lemma length_substring_le n m s : (String.length (substring n m s) <= m)%nat.
Proof.
  revert n m. induction s as [|c s IH]; intros n m.
  - destruct n, m; simpl; lia.
  - destruct n as [|n]; [destruct m as [|m]; simpl; [lia|specialize (IH 0%nat m); lia]|].
    simpl. apply IH.
Qed.

Lemma py_replace_fuel_enough old new (Hold : old <> "") : forall n m s,
  (String.length s <= n)%nat -> (String.length s <= m)%nat ->
  py_replace_fuel n old new s = py_replace_fuel m old new s.
Proof.
  assert (Hl : (1 <= String.length old)%nat) by (destruct old; [congruence|simpl; lia]).
  induction n as [|n IH]; intros m s Hn Hm.
  - destruct s; [|simpl in Hn; lia]. destruct m; reflexivity.
  - destruct m as [|m]; [destruct s; [reflexivity|simpl in Hm; lia]|].
    destruct s as [|c s]; [reflexivity|]. cbn [py_replace_fuel].
    destruct (String.prefix old (String c s)).
    + f_equal. cbn [String.length] in *.
      pose proof (length_substring_le (String.length old) (S (String.length s) - String.length old)
                    (String c s)).
      apply IH; lia.
    + f_equal. cbn [String.length] in *. apply IH; lia.
Qed.

Lemma py_replace_fuel_at_old old new b n (Hold : old <> "") :
  (String.length (old ++ b) <= n)%nat ->
  py_replace_fuel n old new (old ++ b) = new ++ py_replace_fuel (String.length b) old new b.
Proof.
  intros Hn. destruct n as [|n].
  { destruct old; [congruence|simpl in Hn; lia]. }
  destruct old as [|c o]; [congruence|].
  change (String c o ++ b) with (String c (o ++ b)). cbn [py_replace_fuel].
  assert (Hp : String.prefix (String c o) (String c (o ++ b)) = true)
    by exact (prefix_app_self (String c o) b).
  rewrite Hp. f_equal.
  change (substring (String.length (String c o)) (String.length (String c (o ++ b)) - String.length (String c o))
            (String c (o ++ b)))
    with (substring (String.length (String c o)) (String.length (String c o ++ b) - String.length (String c o))
            (String c o ++ b)).
  rewrite length_string_app.
  replace (String.length (String c o) + String.length b - String.length (String c o))%nat
    with (String.length b) by lia.
  rewrite substring_app_length.
  apply py_replace_fuel_enough; [discriminate| |lia].
  rewrite length_string_app in Hn. simpl in Hn. lia.
Qed.

(** The substitution of POST /api/mcp/prompts/{name}: in a text whose part
    before the first placeholder has no '{', that placeholder is replaced
    by the value and substitution continues after it. *)
Theorem py_replace_placeholder :
  forall var value a b,
    (forall c, In c (list_ascii_of_string a) -> c <> "{"%char) ->
    py_replace ("{" ++ var ++ "}") value (a ++ ("{" ++ var ++ "}") ++ b)
    = a ++ value ++ py_replace ("{" ++ var ++ "}") value b.
Proof.
  intros var value a b. unfold py_replace. induction a as [|c a IH]; intros H.
  - exact (py_replace_fuel_at_old ("{" ++ var ++ "}") value b _ ltac:(discriminate) (le_n _)).
  - change (py_replace_fuel (S (String.length (a ++ ("{" ++ var ++ "}") ++ b))) ("{" ++ var ++ "}")
              value (String c (a ++ ("{" ++ var ++ "}") ++ b))
            = String c (a ++ value ++ py_replace_fuel (String.length b) ("{" ++ var ++ "}") value b)).
    cbn [py_replace_fuel].
    assert (Hc : c <> "{"%char) by (apply H; left; reflexivity).
    assert (Hp : String.prefix ("{" ++ var ++ "}") (String c (a ++ ("{" ++ var ++ "}") ++ b)) = false).
    { cbn [String.append String.prefix]. destruct (ascii_dec "{" c) as [E|E]; [congruence|reflexivity]. }
    rewrite Hp. f_equal. apply IH. intros c' Hc'. apply H. right. exact Hc'.
Qed.

(** After GET /api/auth/logout the session identifies no one: require_auth
    answers 401, the resolver finds no principal, and a pending Google
    callback is rejected. *)
Theorem logout_ends_session :
  forall session hash_token verify_token now db cat pte gui state code new_id,
    let s := fst (logout session) in
    require_auth verify_token db (mkRequest s None None) = Raise 401 "Authentication required" /\
    get_current_user_or_token hash_token verify_token now db (mkRequest s None None) = (db, None) /\
    google_callback cat pte gui state code new_id s db = ((s, db), RedirectResponse "/?auth=error").
Proof.
  intros. cbv zeta. split; [reflexivity|]. split; [reflexivity|].
  unfold google_callback. rewrite google_callback_body_rejects; [reflexivity|].
  simpl. intros [H1 H2]. subst state. discriminate.
Qed.

Lemma NoDup_app_last {A} (l : list A) (x : A) : NoDup l -> ~ In x l -> NoDup (app l [x]).
Proof.
  induction l as [|a l IH]; intros Hn Hx; simpl.
  - constructor; [intros []|constructor].
  - inversion Hn as [|? ? Hnot Hn']; subst. constructor.
    + intros Hin. apply in_app_or in Hin as [Hin|[<-|[]]]; [contradiction|].
      apply Hx. now left.
    + apply IH; [exact Hn'|]. intros Hin. apply Hx. now right.
Qed.

(** Registration keeps user ids and emails unique and stores the new
    user. *)
Theorem registration_keeps_users_unique :
  forall new_id hashed_password user_data db db1 u,
    create_user_from_email new_id hashed_password user_data db = (db1, Ok u) ->
    NoDup (map u_id (users db)) -> NoDup (map u_email (users db)) ->
    NoDup (map u_id (users db1)) /\ NoDup (map u_email (users db1)) /\ In u (users db1).
Proof.
  intros nid h ud db db1 u H Hi He. unfold create_user_from_email in H.
  destruct (find _ (users db)) eqn:Hf; [discriminate|].
  destruct (existsb _ (users db)) eqn:Hx; [discriminate|].
  injection H as <- <-. unfold set_users. cbn [users]. rewrite !map_app. cbn [map].
  split; [|split].
  - apply NoDup_app_last; [exact Hi|]. cbn [u_id]. intros Hin.
    apply in_map_iff in Hin as [v [Hv Hin]].
    apply Bool.not_true_iff_false in Hx. apply Hx, existsb_exists. exists v.
    split; [exact Hin|]. now apply String.eqb_eq.
  - apply NoDup_app_last; [exact He|]. cbn [u_email]. intros Hin.
    apply in_map_iff in Hin as [v [Hv Hin]].
    pose proof (find_none _ _ Hf v Hin) as Hv'. cbn beta in Hv'. rewrite Hv, String.eqb_refl in Hv'.
    discriminate.
  - apply in_or_app. right. now left.
Qed.

(** Google sign-in keeps user ids and emails unique and leaves the signed-in
    user, with provider "google", in the table.  Hypothesis: the fresh id
    (uuid4) is not taken. *)
Theorem google_login_keeps_users_unique :
  forall new_id info session db s1 db1 u,
    create_or_update_user_from_google new_id info (session, db) = ((s1, db1), Done u) ->
    NoDup (map u_id (users db)) -> NoDup (map u_email (users db)) ->
    (forall v, In v (users db) -> u_id v <> new_id) ->
    NoDup (map u_id (users db1)) /\ NoDup (map u_email (users db1)) /\ In u (users db1) /\
    u_auth_provider u = "google".
Proof.
  intros nid info session db s1 db1 u H Hi He Hfresh. unfold create_or_update_user_from_google in H.
  destruct (find _ (users db)) as [ex|] eqn:Hf.
  - apply find_some in Hf as [Hex _].
    destruct (existsb _ (users db)); [discriminate|].
    injection H as <- <- <-. unfold set_users. cbn [users].
    split; [|split; [|split]].
    + erewrite map_replace_preserves with (t := ex); [exact Hi|exact Hi|exact Hex|reflexivity|reflexivity].
    + erewrite map_replace_preserves with (t := ex); [exact He|exact Hi|exact Hex|reflexivity|reflexivity].
    + apply map_replace_in with (t := ex); [exact Hex|reflexivity].
    + reflexivity.
  - destruct (gi_email info) as [e|] eqn:Hem; [|discriminate].
    injection H as <- <- <-. unfold set_users. cbn [users]. rewrite !map_app. cbn [map].
    split; [|split; [|split]].
    + apply NoDup_app_last; [exact Hi|]. cbn [u_id]. intros Hin.
      apply in_map_iff in Hin as [v [Hv Hin]]. exact (Hfresh v Hin Hv).
    + apply NoDup_app_last; [exact He|]. cbn [u_email]. intros Hin.
      apply in_map_iff in Hin as [v [Hv Hin]].
      pose proof (find_none _ _ Hf v Hin) as Hv'. cbn beta in Hv'. try rewrite Hem in Hv'.
      simpl in Hv'. rewrite Hv, String.eqb_refl, orb_true_r in Hv'. discriminate.
    + apply in_or_app. right. now left.
    + reflexivity.
Qed.

(** POST /api/auth/change-password changes only password hashes: prompts,
    tokens and every other column of every user (but `updated_at`, which
    the model does not keep) are kept, and other users' rows are
    untouched. *)
Theorem change_password_touches_only_hash :
  forall verify_password new_hashed data cu db db1 r,
    change_password verify_password new_hashed data cu db = (db1, r) ->
    prompts db1 = prompts db /\ tokens db1 = tokens db /\
    map without_password_hash (users db1) = map without_password_hash (users db) /\
    (forall u, In u (users db) -> u_id u <> u_id cu -> In u (users db1)).
Proof.
  intros vp nh data cu db db1 r H. unfold change_password in H.
  destruct (_ || _);
    [injection H as <- _; split; [reflexivity|split; [reflexivity|split; [reflexivity|auto]]]|].
  destruct (vp _ _) as [[|]|];
    [|injection H as <- _; split; [reflexivity|split; [reflexivity|split; [reflexivity|auto]]]
     |injection H as <- _; split; [reflexivity|split; [reflexivity|split; [reflexivity|auto]]]].
  injection H as <- _. unfold set_users. cbn [users prompts tokens].
  split; [reflexivity|split; [reflexivity|split]].
  - rewrite map_map. apply map_ext. intros u.
    destruct (String.eqb (u_id u) (u_id cu)); reflexivity.
  - intros u Hu Hne. apply in_map_iff. exists u. split; [|exact Hu].
    apply String.eqb_neq in Hne. now rewrite Hne.
Qed.

Lemma drop_space_in l c : In c (drop_space l) -> In c l.
Proof.
  induction l as [|a l IH]; simpl; [tauto|].
  destruct (py_isspace a); [intros H; right; exact (IH H)|tauto].
Qed.

Lemma py_strip_in s c :
  In c (list_ascii_of_string (py_strip s)) -> In c (list_ascii_of_string s).
Proof.
  unfold py_strip. rewrite list_ascii_of_string_of_list_ascii. intros H.
  apply in_rev in H. apply drop_space_in in H. apply in_rev in H. exact (drop_space_in _ _ H).
Qed.

Lemma list_ascii_of_string_app s t :
  list_ascii_of_string (s ++ t) = app (list_ascii_of_string s) (list_ascii_of_string t).
Proof. induction s as [|c s IH]; simpl; [reflexivity|now rewrite IH]. Qed.

Lemma py_split_sep_aux_no_sep sep s : forall cur piece,
  In piece (py_split_sep_aux sep s cur) -> ~ In sep (list_ascii_of_string cur) ->
  ~ In sep (list_ascii_of_string piece).
Proof.
  induction s as [|c s IH]; intros cur piece Hin Hcur; simpl in Hin.
  - destruct Hin as [<-|[]]. exact Hcur.
  - destruct (Ascii.eqb_spec c sep) as [E|E].
    + destruct Hin as [<-|Hin]; [exact Hcur|]. apply (IH "" piece Hin). simpl. tauto.
    + apply (IH _ piece Hin). rewrite list_ascii_of_string_app. simpl. intros Hs.
      apply in_app_or in Hs as [Hs|[Hs|[]]]; [exact (Hcur Hs)|exact (E Hs)].
Qed.

(** The tags parsed from a `**Tags:**` line are non-empty, stripped and
    contain no comma. *)
Theorem parse_tags_clean :
  forall value tag, In tag (parse_tags value) ->
    tag <> "" /\ py_strip tag = tag /\ ~ In ","%char (list_ascii_of_string tag).
Proof.
  intros value tag H. unfold parse_tags in H. apply filter_In in H as [H Hne].
  apply in_map_iff in H as [t [<- Ht]].
  split; [intros E; rewrite E in Hne; discriminate|]. split; [apply py_strip_idem|].
  intros Hc. apply py_strip_in in Hc.
  exact (py_split_sep_aux_no_sep _ _ _ _ Ht ltac:(intros [])  Hc).
Qed.


(* ------------------------------------------------------------------ *)
(* Prompt listing, prompt deletion, MCP configuration, primary keys    *)
(* ------------------------------------------------------------------ *)

(** GET /api/prompts orders by one of title, category or created_at
    whatever sortBy is, and in ascending order exactly when sortOrder
    lowercases to "asc". *)
Theorem sort_parameters_validated :
  forall sortBy sortOrder,
    In (sort_column sortBy) ["title"; "category"; "created_at"] /\
    (sort_descending sortOrder = false <-> py_lower sortOrder = "asc").
Proof.
  intros sortBy sortOrder. split.
  - unfold sort_column, valid_sort_field.
    destruct (existsb _ _) eqn:E; [|simpl; tauto].
    apply existsb_exists in E as [x [Hx Ex]]. apply String.eqb_eq in Ex. subst x.
    in_cases Hx; simpl; tauto.
  - unfold sort_descending.
    destruct (existsb (String.eqb (py_lower sortOrder)) ["asc"; "desc"]) eqn:E.
    + apply existsb_exists in E as [x [Hx Ex]]. apply String.eqb_eq in Ex. rewrite Ex.
      in_cases Hx; simpl; split; congruence.
    + simpl. split; [discriminate|]. intros Ha. rewrite Ha in E. discriminate.
Qed.

(** GET /api/prompts lists at most 50 prompts, its total is the length of
    the list, and every listed prompt is public or the caller's, with
    is_owner telling which.  Hypothesis: the ORDER BY only reorders rows. *)
Theorem get_prompts_accessible :
  forall order_by hash_token verify_token now sortBy sortOrder request db db1 views total,
    (forall column descending l x, In x (order_by column descending l) -> In x l) ->
    get_prompts order_by hash_token verify_token now sortBy sortOrder request db
      = (db1, Ok (views, total)) ->
    exists cu,
      snd (get_current_user_or_token hash_token verify_token now db request) = Some cu /\
      total = List.length views /\ (total <= 50)%nat /\
      (forall v, In v views -> exists p, In p (prompts db) /\
         (p_is_public p = true \/ p_user_id p = u_id cu) /\
         v = prompt_view p (String.eqb (p_user_id p) (u_id cu))).
Proof.
  intros order_by ht vt now sortBy sortOrder request db db1 views total Hord H.
  pose proof (prompts_resolver ht vt now db request) as Hp.
  unfold get_prompts in H.
  destruct (get_current_user_or_token ht vt now db request) as [db2 [cu|]];
    cbn [fst] in Hp; [|discriminate].
  revert H. set (ps := firstn 50 _). intros H.
  injection H as <- <- <-. exists cu. split; [reflexivity|].
  split; [now rewrite length_map|]. split; [apply firstn_le_length|].
  intros v Hv. apply in_map_iff in Hv as [p [<- Hin]].
  assert (Hin' : In p (filter (mcp_accessible cu) (prompts db2))).
  { apply (Hord (sort_column sortBy) (sort_descending sortOrder)).
    rewrite <- (firstn_skipn 50 (order_by _ _ _)). apply in_or_app. now left. }
  apply filter_In in Hin' as [Hin' Ha]. rewrite Hp in Hin'.
  exists p. split; [exact Hin'|split; [|reflexivity]].
  unfold mcp_accessible in Ha. apply orb_prop in Ha as [Ha|Ha].
  - left. now destruct (p_is_public p).
  - right. now apply String.eqb_eq.
Qed.

(** GET /api/tokens/{id}/mcp-config for an id that no token of the caller
    has answers 404, whether or not another user's token has that id. *)
Theorem get_mcp_config_owner_only :
  forall token_id cu db,
    (forall t, In t (tokens db) -> tok_id t = token_id -> tok_user_id t <> u_id cu) ->
    get_mcp_config token_id cu db = Raise 404 "Token not found" /\
    (forall c, get_mcp_config token_id cu db <> Ok c).
Proof.
  intros tid cu db H. unfold get_mcp_config, query_owned_token.
  rewrite find_all_false; [split; [reflexivity|discriminate]|].
  intros t Ht. destruct (String.eqb_spec (tok_id t) tid) as [E|E]; [|reflexivity].
  apply String.eqb_neq. exact (H t Ht E).
Qed.

(** The MCP configuration returned for a token is for one of the caller's
    tokens and carries only the placeholder "YOUR_API_TOKEN_HERE", never
    the token or its hash. *)
Theorem get_mcp_config_hides_secret :
  forall token_id cu db c,
    get_mcp_config token_id cu db = Ok c ->
    mc_access_token c = "YOUR_API_TOKEN_HERE" /\ mc_token_id c = token_id /\
    mc_owner_user_id c = u_id cu /\
    exists t, In t (tokens db) /\ tok_id t = token_id /\ tok_user_id t = u_id cu /\
              mc_token_name c = tok_name t.
Proof.
  intros tid cu db c H. unfold get_mcp_config in H.
  destruct (query_owned_token db tid cu) as [t|] eqn:Hq; [|discriminate].
  unfold query_owned_token in Hq. apply find_some in Hq as [Ht Hq].
  apply andb_prop in Hq as [Hid Hown]. rewrite Hown in H. cbn [negb] in H.
  injection H as <-. apply String.eqb_eq in Hid. apply String.eqb_eq in Hown.
  cbn. split; [reflexivity|split; [exact Hid|split; [exact Hown|]]].
  exists t. auto.
Qed.

(** DELETE /api/prompts/{id} either raises and leaves the prompts unchanged,
    or removes exactly one prompt, which the caller owns or which is public
    with the caller an admin.  Hypothesis: prompt ids are unique (primary
    key). *)
Theorem delete_prompt_exact :
  forall hash_token verify_token now prompt_id request db db' r,
    delete_prompt hash_token verify_token now prompt_id request db = (db', r) ->
    NoDup (map p_id (prompts db)) ->
    users db' = users db /\
    ((prompts db' = prompts db /\ exists code detail, r = Raise code detail) \/
     exists cu p,
       snd (get_current_user_or_token hash_token verify_token now db request) = Some cu /\
       In p (prompts db) /\ p_id p = prompt_id /\
       (p_user_id p = u_id cu \/ (u_is_admin cu = true /\ p_is_public p = true)) /\
       (forall x, In x (prompts db') <-> In x (prompts db) /\ x <> p)).
Proof.
  intros ht vt now pid request db db' r H Hn.
  pose proof (prompts_resolver ht vt now db request) as Hp.
  pose proof (users_resolver ht vt now db request) as Hu.
  unfold delete_prompt in H. cbv zeta in H.
  destruct (get_current_user_or_token ht vt now db request) as [db2 [cu|]];
    cbn [fst snd] in Hp, Hu |- *.
  2:{ injection H as <- <-. split; [exact Hu|left; split; [exact Hp|eauto]]. }
  destruct (query_prompt_by_id db2 pid) as [p|] eqn:Hq.
  2:{ injection H as <- <-. split; [exact Hu|left; split; [exact Hp|eauto]]. }
  unfold query_prompt_by_id in Hq. apply find_some in Hq as [Hin Hid].
  apply String.eqb_eq in Hid. rewrite Hp in Hin.
  destruct (negb (String.eqb (p_user_id p) (u_id cu)) && negb (u_is_admin cu && p_is_public p))
    eqn:Hauth.
  { injection H as <- <-. split; [exact Hu|left; split; [exact Hp|eauto]]. }
  injection H as <- <-. unfold delete_prompt_row, set_prompts. cbn [users prompts].
  split; [exact Hu|]. right. exists cu, p.
  split; [reflexivity|split; [exact Hin|split; [exact Hid|split]]].
  - apply andb_false_iff in Hauth as [Ha|Ha]; apply negb_false_iff in Ha.
    + left. now apply String.eqb_eq.
    + right. now apply andb_prop in Ha.
  - intros x. rewrite filter_In, Hp. split.
    + intros [Hx Hne]. split; [exact Hx|]. intros ->. now rewrite String.eqb_refl in Hne.
    + intros [Hx Hne]. split; [exact Hx|].
      destruct (String.eqb_spec (p_id x) (p_id p)) as [E|E]; [|reflexivity].
      exfalso. exact (Hne (NoDup_map_key p_id _ x p Hn Hx Hin E)).
Qed.

(** POST /api/prompts keeps prompt ids unique and touches no other table. *)
Theorem create_prompt_keeps_ids_unique :
  forall prompt_row_fits new_id body db db1 v,
    create_prompt prompt_row_fits new_id body db = (db1, Ok v) ->
    NoDup (map p_id (prompts db)) ->
    NoDup (map p_id (prompts db1)) /\ users db1 = users db /\ tokens db1 = tokens db /\
    pv_id v = new_id.
Proof.
  intros fits nid body db db1 v H Hn. unfold create_prompt in H.
  destruct body as [data|]; [|discriminate].
  destruct (jget_not_null (pcb_title data) "Untitled"), (jget_not_null (pcb_content data) ""),
    (jget_not_null (pcb_user_id data) "anonymous"); try discriminate.
  destruct (existsb _ (prompts db)) eqn:Hx; [discriminate|].
  destruct (negb (fits _)); [discriminate|].
  injection H as <- <-. unfold set_prompts. cbn [users tokens prompts].
  split; [|split; [reflexivity|split; reflexivity]].
  rewrite map_app. apply NoDup_app_last; [exact Hn|]. cbn [p_id]. intros Hin.
  apply in_map_iff in Hin as [p [Hp Hin]].
  apply Bool.not_true_iff_false in Hx. apply Hx, existsb_exists. exists p.
  split; [exact Hin|]. now apply String.eqb_eq.
Qed.

(** POST /api/tokens keeps token ids unique, touches no other table,
    returns the raw token once, and stores only its hash. *)
Theorem create_token_keeps_ids_unique :
  forall hash_token raw_token new_id body cu db db1 created,
    create_token hash_token raw_token new_id body cu db = (db1, Ok created) ->
    NoDup (map tok_id (tokens db)) ->
    NoDup (map tok_id (tokens db1)) /\ users db1 = users db /\ prompts db1 = prompts db /\
    tc_token created = raw_token /\
    exists t, In t (tokens db1) /\ tok_id t = new_id /\ tok_token_hash t = hash_token raw_token.
Proof.
  intros ht raw nid body cu db db1 c H Hn. unfold create_token in H.
  destruct body as [data|]; [|discriminate].
  destruct (existsb _ (tokens db)) eqn:Hx; [discriminate|].
  injection H as <- <-. unfold set_tokens. cbn [users tokens prompts].
  split; [|split; [reflexivity|split; [reflexivity|split; [reflexivity|]]]].
  - rewrite map_app. apply NoDup_app_last; [exact Hn|]. cbn [tok_id]. intros Hin.
    apply in_map_iff in Hin as [t [Ht Hin]].
    apply Bool.not_true_iff_false in Hx. apply Hx, existsb_exists. exists t.
    split; [exact Hin|]. now apply String.eqb_eq.
  - eexists. split; [apply in_or_app; right; left; reflexivity|split; reflexivity].
Qed.


(* Witnesses of the properties above, on the concrete database. *)

Lemma validate_names_idempotent_witness :
  validate_names "  Ann " = Done "Ann" /\ validate_names "Ann" = Done "Ann".
Proof.
  split; [reflexivity|]. apply (validate_names_idempotent "  Ann "). reflexivity.
Defined.

Lemma register_then_login_witness :
  let '((s1, db1), out) :=
    register_user jwt_encode_demo "dave" "bcrypt:pw-dave" dave_registration empty_session db_demo in
  (exists r, out = Ok r /\ lr_user_id r = "dave") /\
  (exists s2 r2, login_user bcrypt_demo jwt_encode_demo "dave@x.com" "pw-dave" s1 db1
                   = (s2, Ok r2) /\ lr_user_id r2 = "dave") /\
  (forall new_id2 hashed2 user_data2,
     ur_email user_data2 = "dave@x.com" ->
     snd (register_user jwt_encode_demo new_id2 hashed2 user_data2 s1 db1)
       = Raise 400 "User with this email already exists").
Proof.
  apply (register_then_login jwt_encode_demo bcrypt_demo "dave" "bcrypt:pw-dave"
           dave_registration empty_session db_demo).
  - intros u Hu. in_cases Hu; discriminate.
  - intros u Hu. in_cases Hu; discriminate.
  - discriminate.
  - reflexivity.
Defined.

Lemma change_password_then_login_witness :
  let db1 := fst (change_password bcrypt_demo "bcrypt:N3wpass!" alice_password_change alice db_demo) in
  (exists s r, login_user bcrypt_demo jwt_encode_demo "alice@x.com" "N3wpass!" empty_session db1
               = (s, Ok r) /\ lr_user_id r = "alice") /\
  (bcrypt_demo "Passw0rd" "bcrypt:N3wpass!" = Some false ->
   login_user bcrypt_demo jwt_encode_demo "alice@x.com" "Passw0rd" empty_session db1
     = (empty_session, Raise 401 "Invalid email or password")).
Proof.
  apply (change_password_then_login bcrypt_demo jwt_encode_demo "bcrypt:N3wpass!"
           alice_password_change alice db_demo _ "Password changed successfully" empty_session).
  - reflexivity.
  - simpl. now left.
  - reflexivity.
  - intros u Hu He. in_cases Hu; [reflexivity|discriminate|discriminate].
  - discriminate.
  - reflexivity.
Defined.

Lemma google_login_without_sub_converts_matching_row_witness :
  exists db1 u w,
    create_or_update_user_from_google "n-1" google_profile_bob_v2 (empty_session, db_demo)
      = ((empty_session, db1), Done u) /\
    In w (users db_demo) /\
    (u_google_id w = None \/ gi_email google_profile_bob_v2 = Some (u_email w)) /\
    u_id u = u_id w /\ u_email u = u_email w /\ u_is_admin u = u_is_admin w /\
    u_password_hash u = u_password_hash w /\ u_google_id u = None /\
    u_auth_provider u = "google" /\
    login_user bcrypt_demo jwt_encode_demo (u_email w) "Passw0rd" empty_session db1
      = (empty_session, Raise 401 "Invalid email or password") /\
    change_password bcrypt_demo "bcrypt:x" alice_password_change u db1
      = (db1, Raise 400 "Password change not available for OAuth users").
Proof.
  apply (google_login_without_sub_converts_matching_row bcrypt_demo jwt_encode_demo "n-1"
           google_profile_bob_v2 db_demo empty_session "Passw0rd" alice_password_change
           "bcrypt:x").
  - reflexivity.
  - intros u v Hu Hv He. in_cases Hu; in_cases Hv; first [reflexivity|discriminate].
  - exists alice. split; [simpl; now left|left; reflexivity].
Defined.

Lemma login_binds_session_witness :
  exists s1 r,
    login_user bcrypt_demo jwt_encode_demo "alice@x.com" "Passw0rd" empty_session db_demo
      = (s1, Ok r) /\
    exists u, get_current_user jwt_decode_none db_demo (mkRequest s1 None None) = Some u /\
              u_id u = lr_user_id r /\ u_email u = "alice@x.com" /\
              s_access_token s1 = Some (lr_token r).
Proof.
  do 2 eexists. split; [reflexivity|].
  apply (login_binds_session bcrypt_demo jwt_encode_demo jwt_decode_none "alice@x.com" "Passw0rd"
           empty_session db_demo).
  - reflexivity.
  - intros u v Hu Hv. in_cases Hu; in_cases Hv; intros E; first [reflexivity|discriminate].
  - intros u Hu. in_cases Hu; discriminate.
Defined.

Lemma google_auth_state_single_use_witness :
  let s1 := fst (google_auth urlencode_demo (Some "cid") "https://app/callback" "st-1" empty_session) in
  s_oauth_state s1 = Some "st-1" /\
  (forall other, other <> Some "st-1" ->
     google_callback jwt_encode_demo token_endpoint_down userinfo_down other (Some "c") "n-1" s1 db_demo
       = ((s1, db_demo), RedirectResponse "/?auth=error")) /\
  (forall code' new_id',
     let st2 := fst (google_callback jwt_encode_demo token_endpoint_down userinfo_down
                       (Some "st-1") (Some "c") "n-1" s1 db_demo) in
     google_callback jwt_encode_demo token_endpoint_down userinfo_down (Some "st-1") code' new_id'
       (fst st2) (snd st2)
       = ((fst st2, snd st2), RedirectResponse "/?auth=error")).
Proof.
  apply (google_auth_state_single_use urlencode_demo (Some "cid") "https://app/callback" "st-1"
           empty_session jwt_encode_demo token_endpoint_down userinfo_down (Some "c") "n-1" db_demo).
  - reflexivity.
  - discriminate.
Defined.

(** Distinct keys of a concrete table. *)
Ltac nodup_concrete := vm_compute; repeat constructor; simpl; intuition discriminate.

Lemma verify_api_token_bookkeeping_witness :
  let (db', r) := verify_api_token sha256_demo 7 "bob-secret" db_demo in
  users db' = users db_demo /\ prompts db' = prompts db_demo /\
  map (fun t => (tok_id t, tok_token_hash t, tok_user_id t, tok_is_active t,
                 tok_permissions t, tok_expires_at t)) (tokens db')
  = map (fun t => (tok_id t, tok_token_hash t, tok_user_id t, tok_is_active t,
                   tok_permissions t, tok_expires_at t)) (tokens db_demo) /\
  (forall u, r = Some u ->
     total_usage (tokens db') = (total_usage (tokens db_demo) + 1)%Z /\
     exists t, In t (tokens db') /\ tok_token_hash t = sha256_demo "bob-secret" /\
               tok_is_active t = true /\ tok_last_used_at t = Some 7%Z /\
               tok_user_id t = u_id u).
Proof.
  apply (verify_api_token_bookkeeping sha256_demo 7 "bob-secret" db_demo). nodup_concrete.
Defined.

Lemma update_token_preserves_credentials_witness :
  let db' := fst (update_token "t-bob" (Some token_patch_deactivate) bob db_demo) in
  users db' = users db_demo /\ prompts db' = prompts db_demo /\
  map (fun t => (tok_id t, tok_token_hash t, tok_user_id t, tok_last_used_at t,
                 tok_usage_count t, tok_expires_at t)) (tokens db')
  = map (fun t => (tok_id t, tok_token_hash t, tok_user_id t, tok_last_used_at t,
                   tok_usage_count t, tok_expires_at t)) (tokens db_demo) /\
  (forall t, In t (tokens db_demo) -> tok_user_id t <> u_id bob -> In t (tokens db')).
Proof.
  apply (update_token_preserves_credentials "t-bob" (Some token_patch_deactivate) bob db_demo).
  nodup_concrete.
Defined.

Lemma delete_token_exact_witness :
  exists db' r,
    delete_token "t-alice" alice db_demo = (db', r) /\
    users db' = users db_demo /\ prompts db' = prompts db_demo /\
    ((db' = db_demo /\ exists code detail, r = Raise code detail) \/
     exists t, In t (tokens db_demo) /\ tok_id t = "t-alice" /\ tok_user_id t = u_id alice /\
       (forall x, In x (tokens db') <-> In x (tokens db_demo) /\ x <> t)).
Proof.
  do 2 eexists. split; [reflexivity|].
  eapply (delete_token_exact "t-alice" alice db_demo); [reflexivity|nodup_concrete].
Defined.

Lemma create_token_then_get_tokens_witness :
  exists db1 created,
    create_token sha256_demo "new-secret" "t-new" (Some token_body_default) alice db_demo
      = (db1, Ok created) /\
    exists before after v,
      get_tokens alice db_demo = Ok before /\ get_tokens alice db1 = Ok after /\
      tl_count after = S (tl_count before) /\
      Permutation (tl_tokens after) (v :: tl_tokens before) /\
      tv_id v = "t-new" /\ tc_id created = "t-new" /\ tv_owner_user_id v = u_id alice /\
      tv_is_active v = true /\ tv_usage_count v = 0%Z /\ tv_last_used_at v = None.
Proof.
  do 2 eexists. split; [reflexivity|].
  eapply (create_token_then_get_tokens sha256_demo "new-secret" "t-new" (Some token_body_default)
           alice db_demo). reflexivity.
Defined.

Lemma update_prompt_preserves_owners_witness :
  let db' := fst (update_prompt sha256_demo jwt_decode_none 5 "p1" (Some prompt_patch_title)
                    (request_session "alice") db_demo) in
  users db' = users db_demo /\
  map (fun p => (p_id p, p_user_id p)) (prompts db')
  = map (fun p => (p_id p, p_user_id p)) (prompts db_demo) /\
  (forall p, In p (prompts db_demo) -> p_id p <> "p1" -> In p (prompts db')).
Proof.
  apply (update_prompt_preserves_owners sha256_demo jwt_decode_none 5 "p1" (Some prompt_patch_title)
           (request_session "alice") db_demo). nodup_concrete.
Defined.

Lemma get_user_stats_counts_witness :
  exists db1 st,
    get_user_stats sha256_demo jwt_decode_none 5 (request_session "alice") db_demo = (db1, Ok st) /\
    us_public st
      = List.length (filter (fun p => String.eqb (p_user_id p) (us_id st) && p_is_public p)
                      (prompts db_demo)) /\
    us_private st
      = Z.of_nat (List.length (filter (fun p => String.eqb (p_user_id p) (us_id st)
                                                && negb (p_is_public p)) (prompts db_demo))) /\
    us_total st = (us_public st + Z.to_nat (us_private st))%nat /\
    (us_name st = "" -> us_email st = "").
Proof.
  do 2 eexists. split; [reflexivity|].
  eapply (get_user_stats_counts sha256_demo jwt_decode_none 5 (request_session "alice") db_demo).
  reflexivity.
Defined.

Lemma mcp_get_prompts_bounded_witness :
  exists db1 views,
    mcp_get_prompts sha256_demo jwt_decode_none 5 (request_session "alice") db_demo
      = (db1, Ok views) /\
    exists cu,
      snd (get_current_user_or_token sha256_demo jwt_decode_none 5 db_demo (request_session "alice"))
        = Some cu /\
      (List.length views <= 50)%nat /\
      (forall v, In v views -> exists p, In p (prompts db_demo) /\
          (p_is_public p = true \/ p_user_id p = u_id cu) /\
          v = mkMcpPromptView (p_title p) (get_or (p_description p) "")) /\
      ((List.length (filter (mcp_accessible cu) (prompts db_demo)) <= 50)%nat ->
       views = map (fun p => mkMcpPromptView (p_title p) (get_or (p_description p) ""))
                   (filter (mcp_accessible cu) (prompts db_demo))).
Proof.
  do 2 eexists. split; [reflexivity|].
  eapply (mcp_get_prompts_bounded sha256_demo jwt_decode_none 5 (request_session "alice") db_demo).
  reflexivity.
Defined.

Lemma mcp_get_prompt_accessible_only_witness :
  exists db1 text,
    mcp_get_prompt ilike_whole_title sha256_demo jwt_decode_none 5 "Title" (Some [("name", "Ann")])
      (request_session "alice") db_demo = (db1, Ok text) /\
    exists cu p args,
      snd (get_current_user_or_token sha256_demo jwt_decode_none 5 db_demo (request_session "alice"))
        = Some cu /\
      In p (prompts db_demo) /\ (p_is_public p = true \/ p_user_id p = u_id cu) /\
      ilike_whole_title (p_title p) ("%" ++ "Title" ++ "%") = true /\
      Some [("name", "Ann")] = Some args /\
      text = fold_left (fun content kv => py_replace ("{" ++ fst kv ++ "}") (snd kv) content)
               args (p_content p).
Proof.
  do 2 eexists. split; [reflexivity|].
  eapply (mcp_get_prompt_accessible_only ilike_whole_title sha256_demo jwt_decode_none 5 "Title"
           (Some [("name", "Ann")]) (request_session "alice") db_demo). reflexivity.
Defined.

Lemma py_replace_placeholder_witness :
  py_replace "{name}" "Ann" "Hello {name}, {name}!" = "Hello Ann, Ann!".
Proof.
  change (py_replace ("{" ++ "name" ++ "}") "Ann" ("Hello " ++ ("{" ++ "name" ++ "}") ++ ", {name}!")
          = "Hello Ann, Ann!").
  rewrite (py_replace_placeholder "name" "Ann" "Hello " ", {name}!").
  - reflexivity.
  - intros c Hc. in_cases Hc; discriminate.
Defined.

Lemma registration_keeps_users_unique_witness :
  exists db1 u,
    create_user_from_email "dave" "bcrypt:pw-dave" dave_registration db_demo = (db1, Ok u) /\
    NoDup (map u_id (users db1)) /\ NoDup (map u_email (users db1)) /\ In u (users db1).
Proof.
  do 2 eexists. split; [reflexivity|].
  eapply (registration_keeps_users_unique "dave" "bcrypt:pw-dave" dave_registration db_demo);
    [reflexivity|nodup_concrete|nodup_concrete].
Defined.

Lemma google_login_keeps_users_unique_witness :
  exists s1 db1 u,
    create_or_update_user_from_google "n-1" google_profile_alice (empty_session, db_demo)
      = ((s1, db1), Done u) /\
    NoDup (map u_id (users db1)) /\ NoDup (map u_email (users db1)) /\ In u (users db1) /\
    u_auth_provider u = "google".
Proof.
  do 3 eexists. split; [reflexivity|].
  eapply (google_login_keeps_users_unique "n-1" google_profile_alice empty_session db_demo).
  - reflexivity.
  - nodup_concrete.
  - nodup_concrete.
  - intros v Hv. in_cases Hv; discriminate.
Defined.

Lemma change_password_touches_only_hash_witness :
  exists db1 r,
    change_password bcrypt_demo "bcrypt:N3wpass!" alice_password_change alice db_demo = (db1, r) /\
    prompts db1 = prompts db_demo /\ tokens db1 = tokens db_demo /\
    map without_password_hash (users db1) = map without_password_hash (users db_demo) /\
    (forall u, In u (users db_demo) -> u_id u <> u_id alice -> In u (users db1)).
Proof.
  do 2 eexists. split; [reflexivity|].
  eapply (change_password_touches_only_hash bcrypt_demo "bcrypt:N3wpass!" alice_password_change
           alice db_demo). reflexivity.
Defined.

Lemma parse_tags_clean_witness :
  In "b" (parse_tags " a , ,b,") /\
  ("b" <> "" /\ py_strip "b" = "b" /\ ~ In ","%char (list_ascii_of_string "b")).
Proof.
  assert (H : In "b" (parse_tags " a , ,b,")) by (vm_compute; right; left; reflexivity).
  exact (conj H (parse_tags_clean " a , ,b," "b" H)).
Defined.

Lemma get_prompts_accessible_witness :
  exists db1 views total,
    get_prompts order_by_creation sha256_demo jwt_decode_none 5 "title" "DESC"
      (request_session "alice") db_demo = (db1, Ok (views, total)) /\
    exists cu,
      snd (get_current_user_or_token sha256_demo jwt_decode_none 5 db_demo
             (request_session "alice")) = Some cu /\
      total = List.length views /\ (total <= 50)%nat /\
      (forall v, In v views -> exists p, In p (prompts db_demo) /\
         (p_is_public p = true \/ p_user_id p = u_id cu) /\
         v = prompt_view p (String.eqb (p_user_id p) (u_id cu))).
Proof.
  do 3 eexists. split; [reflexivity|].
  eapply (get_prompts_accessible order_by_creation sha256_demo jwt_decode_none 5 "title" "DESC"
           (request_session "alice") db_demo).
  - intros column descending l x Hx. unfold order_by_creation in Hx.
    destruct descending; [exact (proj2 (in_rev l x) Hx)|exact Hx].
  - reflexivity.
Defined.

Lemma get_mcp_config_owner_only_witness :
  get_mcp_config "t-bob" alice db_demo = Raise 404 "Token not found" /\
  (forall c, get_mcp_config "t-bob" alice db_demo <> Ok c).
Proof.
  apply (get_mcp_config_owner_only "t-bob" alice db_demo).
  intros t Ht Hid. in_cases Ht; [discriminate|cbv in Hid; discriminate Hid].
Defined.

Lemma get_mcp_config_hides_secret_witness :
  exists c,
    get_mcp_config "t-alice" alice db_demo = Ok c /\
    mc_access_token c = "YOUR_API_TOKEN_HERE" /\ mc_token_id c = "t-alice" /\
    mc_owner_user_id c = u_id alice /\
    exists t, In t (tokens db_demo) /\ tok_id t = "t-alice" /\ tok_user_id t = u_id alice /\
              mc_token_name c = tok_name t.
Proof.
  eexists. split; [reflexivity|].
  eapply (get_mcp_config_hides_secret "t-alice" alice db_demo). reflexivity.
Defined.

Lemma delete_prompt_exact_witness :
  let r := delete_prompt sha256_demo jwt_decode_none 5 "p1" (request_session "alice") db_demo in
  users (fst r) = users db_demo /\
  ((prompts (fst r) = prompts db_demo /\ exists code detail, snd r = Raise code detail) \/
   exists cu p,
     snd (get_current_user_or_token sha256_demo jwt_decode_none 5 db_demo
            (request_session "alice")) = Some cu /\
     In p (prompts db_demo) /\ p_id p = "p1" /\
     (p_user_id p = u_id cu \/ (u_is_admin cu = true /\ p_is_public p = true)) /\
     (forall x, In x (prompts (fst r)) <-> In x (prompts db_demo) /\ x <> p)).
Proof.
  eapply (delete_prompt_exact sha256_demo jwt_decode_none 5 "p1" (request_session "alice")
           db_demo).
  - apply surjective_pairing.
  - nodup_concrete.
Defined.

Lemma create_prompt_keeps_ids_unique_witness :
  exists db1 v,
    create_prompt prompt_varchar_limits "p2" (Some prompt_body_no_owner) db_demo = (db1, Ok v) /\
    NoDup (map p_id (prompts db1)) /\ users db1 = users db_demo /\
    tokens db1 = tokens db_demo /\ pv_id v = "p2".
Proof.
  do 2 eexists. split; [reflexivity|].
  eapply (create_prompt_keeps_ids_unique prompt_varchar_limits "p2" (Some prompt_body_no_owner)
           db_demo).
  - reflexivity.
  - nodup_concrete.
Defined.

Lemma create_token_keeps_ids_unique_witness :
  exists db1 created,
    create_token sha256_demo "new-secret" "t-new" (Some token_body_default) alice db_demo
      = (db1, Ok created) /\
    NoDup (map tok_id (tokens db1)) /\ users db1 = users db_demo /\
    prompts db1 = prompts db_demo /\ tc_token created = "new-secret" /\
    exists t, In t (tokens db1) /\ tok_id t = "t-new" /\
              tok_token_hash t = sha256_demo "new-secret".
Proof.
  do 2 eexists. split; [reflexivity|].
  eapply (create_token_keeps_ids_unique sha256_demo "new-secret" "t-new"
           (Some token_body_default) alice db_demo).
  - reflexivity.
  - nodup_concrete.
Defined.

